(** * Product analytics dashboard: a model of [app.py] and its properties

    The development embeds the computational core of the dashboard
    ([calculate_metrics], [forecast_metrics], [update_data] and the Dash
    callback wiring) and states the properties of the design document
    against it.

    Conventions of the model.
    - A pandas [DataFrame] is a list of named, typed columns.
    - A numpy [float64] is an exact rational extended with the IEEE special
      values [+inf], [-inf] and [NaN].  Division by zero, [inf - inf],
      [0 * inf] and NaN propagation follow IEEE 754; binary64 rounding,
      overflow to infinity and the sign of zero are not represented.
      Where a statement gives the sign of a projection, says that it is
      a number, or gives its value over the rationals, it is therefore
      made for multipliers and horizons within the ranges of the two
      sliders and for revenues of moderate size, where binary64 cannot
      overflow and rounding cannot change a sign.
    - A numpy [int64] is a [Z] that wraps around modulo 2^64.
    - A pandas [Timestamp] is a number of nanoseconds within the int64
      range; a date computed outside it is an error.
    - A Python exception is the [Raise] case of [result]. *)

From Stdlib Require Import ZArith QArith Qcanon Qround List String Ascii Bool Lia.
From Stdlib Require Import Permutation.
Import ListNotations.
Local Open Scope string_scope.
Local Open Scope list_scope.
Local Open Scope Z_scope.

(** ** Exceptions and the result of a call *)

Inductive exn : Type :=
| IndexError
| KeyError (key : string)
| TypeError
| ValueError
| BinasciiError
| UnicodeDecodeError
| ParserError
| DateParseError
| OverflowError
| OutOfBounds.

(** [OutOfBounds] stands for pandas' OutOfBoundsDatetime and
    OutOfBoundsTimedelta. *)

Inductive result (A : Type) : Type :=
| Ok (a : A)
| Raise (e : exn).
Arguments Ok {A} a.
Arguments Raise {A} e.

Definition bind {A B : Type} (r : result A) (k : A -> result B) : result B :=
  match r with
  | Ok a => k a
  | Raise e => Raise e
  end.

Notation "x <- r ;; k" := (bind r (fun x => k))
  (at level 61, r at next level, right associativity).

(** ** Numbers *)

Module F64.

(** numpy.float64, with exact arithmetic on the finite values. *)
Inductive t : Type :=
| Fin (q : Qc)
| PInf
| NInf
| NaN.

Definition sgn (q : Qc) : Z := Z.sgn (Qnum (this q)).

Definition of_Z (z : Z) : t := Fin (Q2Qc (inject_Z z)).
Definition of_nat (n : nat) : t := of_Z (Z.of_nat n).

Definition zero : t := of_Z 0.
Definition one : t := of_Z 1.

Definition is_nan (x : t) : bool :=
  match x with NaN => true | _ => false end.

Definition is_finite (x : t) : bool :=
  match x with Fin _ => true | _ => false end.

Definition neg (x : t) : t :=
  match x with
  | Fin q => Fin (- q)%Qc
  | PInf => NInf
  | NInf => PInf
  | NaN => NaN
  end.

Definition add (x y : t) : t :=
  match x, y with
  | NaN, _ | _, NaN => NaN
  | Fin a, Fin b => Fin (a + b)%Qc
  | PInf, NInf | NInf, PInf => NaN
  | PInf, _ | _, PInf => PInf
  | NInf, _ | _, NInf => NInf
  end.

Definition sub (x y : t) : t := add x (neg y).

(** An infinity of sign [s] (a non-zero [Z.sgn]); [0 * inf] is NaN. *)
Definition inf_of_sign (s : Z) : t :=
  match s with
  | Z0 => NaN
  | Zpos _ => PInf
  | Zneg _ => NInf
  end.

Definition sign_of (x : t) : Z :=
  match x with
  | Fin q => sgn q
  | PInf => 1
  | NInf => -1
  | NaN => 0
  end.

Definition mul (x y : t) : t :=
  match x, y with
  | NaN, _ | _, NaN => NaN
  | Fin a, Fin b => Fin (a * b)%Qc
  | _, _ => inf_of_sign (sign_of x * sign_of y)
  end.

Definition div (x y : t) : t :=
  match x, y with
  | NaN, _ | _, NaN => NaN
  | Fin a, Fin b =>
      if (sgn b =? 0)%Z then inf_of_sign (sgn a) else Fin (a / b)%Qc
  | Fin _, _ => zero
  | _, Fin b => if (sgn b <? 0)%Z then neg x else x
  | _, _ => NaN
  end.

(** [x ** n] for an integer exponent [n >= 0]. *)
Fixpoint pow (x : t) (n : nat) : t :=
  match n with
  | O => one
  | S m => mul x (pow x m)
  end.

Definition ltb (x y : t) : bool :=
  match x, y with
  | NaN, _ | _, NaN => false
  | Fin a, Fin b =>
      match (a ?= b)%Qc with Lt => true | _ => false end
  | NInf, NInf | PInf, PInf => false
  | NInf, _ | _, PInf => true
  | _, _ => false
  end.

Definition leb (x y : t) : bool :=
  match x, y with
  | NaN, _ | _, NaN => false
  | _, _ => negb (ltb y x)
  end.

End F64.

Abbreviation float64 := F64.t.

Module I64.

(** numpy.int64: two's complement on 64 bits. *)
Definition wrap (z : Z) : Z := (z + 2 ^ 63) mod 2 ^ 64 - 2 ^ 63.

Definition in_range (z : Z) : Prop := - 2 ^ 63 <= z < 2 ^ 63.

End I64.

(** ** Scalars, columns and frames *)

(** A scalar taken out of a frame: [numpy.int64], [numpy.float64], [str],
    [pandas.Timestamp] (nanoseconds since the epoch) or [pandas.NaT]. *)
Inductive cell : Type :=
| Int64 (z : Z)
| Float64 (x : float64)
| Str (s : string)
| Timestamp (t : Z)
| NaT.

(** A column with its dtype: int64, float64, object (strings) and
    datetime64[ns] ([None] is NaT). *)
Inductive column : Type :=
| ColInt (l : list Z)
| ColFloat (l : list float64)
| ColObj (l : list string)
| ColDate (l : list (option Z)).

Definition Series : Type := list (string * cell).
Definition DataFrame : Type := list (string * column).

Definition date_cell (o : option Z) : cell :=
  match o with Some t => Timestamp t | None => NaT end.

Definition col_cells (c : column) : list cell :=
  match c with
  | ColInt l => map Int64 l
  | ColFloat l => map Float64 l
  | ColObj l => map Str l
  | ColDate l => map date_cell l
  end.

Definition col_len (c : column) : nat := List.length (col_cells c).

(** [len(df)]: the number of rows. *)
Definition len (df : DataFrame) : nat :=
  match df with
  | [] => O
  | (_, c) :: _ => col_len c
  end.

(** Python's positional index: a negative [i] counts from the end;
    [None] when it falls outside [0 .. n-1]. *)
Definition position (n : nat) (i : Z) : option nat :=
  let j := if i <? 0 then i + Z.of_nat n else i in
  if (0 <=? j) && (j <? Z.of_nat n) then Some (Z.to_nat j) else None.

(** [s.iloc[i]] on the values of a column. *)
Definition cells_iloc (l : list cell) (i : Z) : result cell :=
  match position (List.length l) i with
  | Some k =>
      match nth_error l k with
      | Some c => Ok c
      | None => Raise IndexError
      end
  | None => Raise IndexError
  end.

Fixpoint row_at (df : DataFrame) (k : nat) : result Series :=
  match df with
  | [] => Ok []
  | (name, c) :: rest =>
      match nth_error (col_cells c) k with
      | Some v => r <- row_at rest k ;; Ok ((name, v) :: r)
      | None => Raise IndexError
      end
  end.

(** The dtype of a row Series is the common dtype of the columns: a row
    across int64 and float64 columns only is float64, and its integers are
    converted; with an object or datetime64 column, or with int64 columns
    only, every scalar keeps its type. *)
Definition keeps_dtypes (df : DataFrame) : bool :=
  existsb (fun nc => match snd nc with
                     | ColObj _ | ColDate _ => true
                     | _ => false
                     end) df
  || forallb (fun nc => match snd nc with
                        | ColInt _ => true
                        | _ => false
                        end) df.

Definition upcast (c : cell) : cell :=
  match c with
  | Int64 z => Float64 (F64.of_Z z)
  | _ => c
  end.

(** [df.iloc[i]]: the row at position [i] as a Series indexed by the
    column names. *)
Definition iloc (df : DataFrame) (i : Z) : result Series :=
  match position (len df) i with
  | Some k =>
      row <- row_at df k ;;
      Ok (if keeps_dtypes df then row
          else map (fun nv => (fst nv, upcast (snd nv))) row)
  | None => Raise IndexError
  end.

(** [row[key]] *)
Fixpoint getitem (row : Series) (key : string) : result cell :=
  match row with
  | [] => Raise (KeyError key)
  | (name, v) :: rest =>
      if String.eqb name key then Ok v else getitem rest key
  end.

(** [df[key]] *)
Fixpoint getcol (df : DataFrame) (key : string) : result column :=
  match df with
  | [] => Raise (KeyError key)
  | (name, c) :: rest =>
      if String.eqb name key then Ok c else getcol rest key
  end.

(** ** Arithmetic on scalars

    The operators of numpy scalars.  Between two [int64] the result of
    [-] and [*] is an [int64]; [/] is true division and always yields a
    [float64]; a mixed operation is carried out in [float64].  A [str], a
    [Timestamp] or [NaT] operand ends these expressions in a [TypeError]. *)

Definition to_float (c : cell) : result float64 :=
  match c with
  | Int64 z => Ok (F64.of_Z z)
  | Float64 x => Ok x
  | _ => Raise TypeError
  end.

Definition cell_sub (a b : cell) : result cell :=
  match a, b with
  | Int64 x, Int64 y => Ok (Int64 (I64.wrap (x - y)))
  | _, _ => x <- to_float a ;; y <- to_float b ;; Ok (Float64 (F64.sub x y))
  end.

Definition cell_mul (a b : cell) : result cell :=
  match a, b with
  | Int64 x, Int64 y => Ok (Int64 (I64.wrap (x * y)))
  | _, _ => x <- to_float a ;; y <- to_float b ;; Ok (Float64 (F64.mul x y))
  end.

Definition cell_div (a b : cell) : result cell :=
  x <- to_float a ;; y <- to_float b ;; Ok (Float64 (F64.div x y)).

(** ** The Metrics Calculator *)

(** The dict returned by [calculate_metrics]. *)
Record Metrics : Type := mkMetrics {
  mau : cell;
  mau_change : cell;
  revenue : cell;
  revenue_change : cell;
  churn_rate : cell;
  conversion : cell
}.

Definition hundred : cell := Int64 100.

Definition calculate_metrics (df : DataFrame) : result Metrics :=
  latest <- iloc df (-1) ;;
  previous <- iloc df (-2) ;;
  l_mau <- getitem latest "monthly_active_users" ;;
  (* 'mau_change' *)
  a <- getitem latest "monthly_active_users" ;;
  b <- getitem previous "monthly_active_users" ;;
  d <- cell_sub a b ;;
  b' <- getitem previous "monthly_active_users" ;;
  q <- cell_div d b' ;;
  v_mau_change <- cell_mul q hundred ;;
  (* 'revenue' *)
  l_rev <- getitem latest "monthly_revenue" ;;
  (* 'revenue_change' *)
  a <- getitem latest "monthly_revenue" ;;
  b <- getitem previous "monthly_revenue" ;;
  d <- cell_sub a b ;;
  b' <- getitem previous "monthly_revenue" ;;
  q <- cell_div d b' ;;
  v_rev_change <- cell_mul q hundred ;;
  (* 'churn_rate' *)
  a <- getitem latest "churned_users" ;;
  b <- getitem previous "monthly_active_users" ;;
  q <- cell_div a b ;;
  v_churn <- cell_mul q hundred ;;
  (* 'conversion' *)
  l_conv <- getitem latest "conversion_rate" ;;
  Ok {| mau := l_mau;
        mau_change := v_mau_change;
        revenue := l_rev;
        revenue_change := v_rev_change;
        churn_rate := v_churn;
        conversion := l_conv |}.

(** ** Datasets

    The data model of the design: one record per month, with integer
    counts and real-valued revenue and conversion rate.  [to_frame] is the
    frame pandas holds for such a series: [date] is datetime64, the counts
    are int64 columns and the real-valued fields are float64 columns. *)

Record MetricRecord : Type := mkRecord {
  date : Z;
  monthly_active_users : Z;
  monthly_revenue : float64;
  new_signups : Z;
  churned_users : Z;
  conversion_rate : float64
}.

Definition Dataset : Type := list MetricRecord.

Definition to_frame (ds : Dataset) : DataFrame :=
  [("date", ColDate (map (fun r => Some (date r)) ds));
   ("monthly_active_users", ColInt (map monthly_active_users ds));
   ("monthly_revenue", ColFloat (map monthly_revenue ds));
   ("new_signups", ColInt (map new_signups ds));
   ("churned_users", ColInt (map churned_users ds));
   ("conversion_rate", ColFloat (map conversion_rate ds))].

(** The row Series of one record. *)
Definition to_row (r : MetricRecord) : Series :=
  [("date", Timestamp (date r));
   ("monthly_active_users", Int64 (monthly_active_users r));
   ("monthly_revenue", Float64 (monthly_revenue r));
   ("new_signups", Int64 (new_signups r));
   ("churned_users", Int64 (churned_users r));
   ("conversion_rate", Float64 (conversion_rate r))].

(** A non-negative real number. *)
Definition nonneg_real (x : float64) : Prop :=
  match x with
  | F64.Fin q => (0 <= q)%Qc
  | _ => False
  end.

(** The field constraints of a MetricRecord. *)
Record valid_record (r : MetricRecord) : Prop := {
  mau_range : 0 <= monthly_active_users r < 2 ^ 63;
  revenue_range : nonneg_real (monthly_revenue r);
  signups_range : 0 <= new_signups r < 2 ^ 63;
  churned_range : 0 <= churned_users r < 2 ^ 63;
  conversion_range : nonneg_real (conversion_rate r)
}.

Fixpoint increasing (l : list Z) : Prop :=
  match l with
  | [] => True
  | x :: rest =>
      match rest with
      | [] => True
      | y :: _ => x < y /\ increasing rest
      end
  end.

(** A Dataset: valid records, sorted by date, no date twice. *)
Definition valid_dataset (ds : Dataset) : Prop :=
  Forall valid_record ds /\ increasing (map date ds).

(** The reference definitions of the KPI snapshot. *)
Definition percent_change (latest previous : float64) : float64 :=
  F64.mul (F64.div (F64.sub latest previous) previous) (F64.of_Z 100).

Definition percent_of (part base : float64) : float64 :=
  F64.mul (F64.div part base) (F64.of_Z 100).

Definition kpi_snapshot (previous latest : MetricRecord) : Metrics :=
  {| mau := Int64 (monthly_active_users latest);
     mau_change :=
       Float64 (percent_change (F64.of_Z (monthly_active_users latest))
                               (F64.of_Z (monthly_active_users previous)));
     revenue := Float64 (monthly_revenue latest);
     revenue_change :=
       Float64 (percent_change (monthly_revenue latest)
                               (monthly_revenue previous));
     churn_rate :=
       Float64 (percent_of (F64.of_Z (churned_users latest))
                           (F64.of_Z (monthly_active_users previous)));
     conversion := Float64 (conversion_rate latest) |}.

(** ** Series and frame operations used by the Forecast Engine *)

Section Argsort.

Context {K : Type} (le : K -> K -> bool).

(** Order on sort keys; a missing key (NaN, NaT) sorts last. *)
Definition key_le (a b : option K) : bool :=
  match a, b with
  | _, None => true
  | None, Some _ => false
  | Some x, Some y => le x y
  end.

Fixpoint insert_key (x : option K * nat) (l : list (option K * nat))
  : list (option K * nat) :=
  match l with
  | [] => [x]
  | y :: rest =>
      if key_le (fst x) (fst y) then x :: l else y :: insert_key x rest
  end.

Fixpoint sort_keys (l : list (option K * nat)) : list (option K * nat) :=
  match l with
  | [] => []
  | x :: rest => insert_key x (sort_keys rest)
  end.

(** The positions of the keys in ascending order.  Ties keep their
    original order. *)
Definition argsort (keys : list (option K)) : list nat :=
  map snd (sort_keys (combine keys (seq 0 (List.length keys)))).

End Argsort.

Definition float_key (x : float64) : option float64 :=
  if F64.is_nan x then None else Some x.

Definition argsort_col (c : column) : list nat :=
  match c with
  | ColInt l => argsort Z.leb (map Some l)
  | ColFloat l => argsort F64.leb (map float_key l)
  | ColObj l => argsort String.leb (map Some l)
  | ColDate l => argsort Z.leb l
  end.

(** The elements of [l] at the positions [idx], in that order. *)
Definition take {A : Type} (l : list A) (idx : list nat) : list A :=
  flat_map (fun i => match nth_error l i with
                     | Some x => [x]
                     | None => []
                     end) idx.

Definition col_map (f : forall A : Type, list A -> list A) (c : column)
  : column :=
  match c with
  | ColInt l => ColInt (f _ l)
  | ColFloat l => ColFloat (f _ l)
  | ColObj l => ColObj (f _ l)
  | ColDate l => ColDate (f _ l)
  end.

Definition frame_map (f : forall A : Type, list A -> list A)
  (df : DataFrame) : DataFrame :=
  map (fun nc => (fst nc, col_map f (snd nc))) df.

(** [df.sort_values(by)]: the rows in ascending order of the key column,
    missing keys last.  pandas leaves the order among equal keys to
    numpy's quicksort; here equal keys keep their original order. *)
Definition sort_values (df : DataFrame) (by_ : string) : result DataFrame :=
  key <- getcol df by_ ;;
  let idx := argsort_col key in
  Ok (frame_map (fun A l => take l idx) df).

Definition lastn {A : Type} (n : nat) (l : list A) : list A :=
  skipn (List.length l - n) l.

(** [df.tail(n)] *)
Definition tail (df : DataFrame) (n : nat) : DataFrame :=
  frame_map (fun A l => lastn n l) df.

(** Forward fill: a NaN takes the last value seen before it. *)
Fixpoint ffill_from (last : option float64) (l : list float64)
  : list float64 :=
  match l with
  | [] => []
  | x :: rest =>
      if F64.is_nan x
      then match last with
           | Some v => v :: ffill_from last rest
           | None => x :: ffill_from last rest
           end
      else x :: ffill_from (Some x) rest
  end.

Definition ffill (l : list float64) : list float64 := ffill_from None l.

(** [data / data.shift(1) - 1] after the first position. *)
Fixpoint changes_from (prev : float64) (l : list float64) : list float64 :=
  match l with
  | [] => []
  | x :: rest =>
      F64.sub (F64.div x prev) F64.one :: changes_from x rest
  end.

Definition changes (l : list float64) : list float64 :=
  match l with
  | [] => []
  | x :: rest => F64.NaN :: changes_from x rest
  end.

(** [s.pct_change()]: the fractional change from the previous row, NaN
    in the first row.  Missing values are padded first. *)
Definition pct_change (c : column) : result (list float64) :=
  match c with
  | ColInt l => Ok (changes (map F64.of_Z l))
  | ColFloat l => Ok (changes (ffill l))
  | ColObj [] => Ok []
  | ColObj _ => Raise TypeError
  | ColDate _ => Raise TypeError
  end.

Definition fsum (l : list float64) : float64 :=
  fold_left F64.add l F64.zero.

(** [s.mean()]: NaN entries are skipped; NaN when nothing is left. *)
Definition mean (l : list float64) : float64 :=
  let valid := filter (fun x => negb (F64.is_nan x)) l in
  match valid with
  | [] => F64.NaN
  | _ => F64.div (fsum valid) (F64.of_nat (List.length valid))
  end.

Definition max_by {A : Type} (lt : A -> A -> bool) (l : list A) : option A :=
  fold_left (fun acc x =>
               match acc with
               | None => Some x
               | Some m => if lt m x then Some x else Some m
               end) l None.

Fixpoint somes {A : Type} (l : list (option A)) : list A :=
  match l with
  | [] => []
  | Some x :: rest => x :: somes rest
  | None :: rest => somes rest
  end.

(** [s.max()]: missing values are skipped. *)
Definition col_max (c : column) : cell :=
  match c with
  | ColInt l =>
      match max_by Z.ltb l with
      | Some m => Int64 m
      | None => Float64 F64.NaN
      end
  | ColFloat l =>
      match max_by F64.ltb (somes (map float_key l)) with
      | Some m => Float64 m
      | None => Float64 F64.NaN
      end
  | ColObj l =>
      match max_by String.ltb l with
      | Some m => Str m
      | None => Float64 F64.NaN
      end
  | ColDate l =>
      match max_by Z.ltb (somes l) with
      | Some m => Timestamp m
      | None => NaT
      end
  end.

Definition ns_per_day : Z := 86400 * 1000000000.

(** The largest Timestamp and the largest Timedelta, in nanoseconds; the
    least are their opposites, the least int64 being NaT. *)
Definition max_ns : Z := 2 ^ 63 - 1.

Definition in_ns_range (z : Z) : bool := (- max_ns <=? z) && (z <=? max_ns).

(** [timedelta(days=d)]: the standard library accepts up to 999999999
    days in either direction. *)
Definition timedelta (d : Z) : result Z :=
  if Z.abs d <=? 999999999 then Ok d else Raise OverflowError.

(** [ts + timedelta(days=d)].  pandas converts the timedelta to
    nanoseconds and adds; either step fails outside the int64 range.  NaT
    absorbs every timedelta.  The date column of every frame the app
    holds is datetime64; a [str] or a [float64] operand is a TypeError in
    Python, and the model reports the same for an [int64]. *)
Definition add_days (c : cell) (d : Z) : result (option Z) :=
  delta <- timedelta d ;;
  match c with
  | Timestamp t =>
      if in_ns_range (delta * ns_per_day)
         && in_ns_range (t + delta * ns_per_day)
      then Ok (Some (t + delta * ns_per_day))
      else Raise OutOfBounds
  | NaT => Ok None
  | _ => Raise TypeError
  end.

(** [c * x] for a [float64] [x]. *)
Definition scale (c : cell) (x : float64) : result float64 :=
  v <- cell_mul c (Float64 x) ;; to_float v.

(** [range(1, n + 1)] *)
Definition range1 (n : Z) : list Z :=
  map Z.of_nat (seq 1 (Z.to_nat n)).

Fixpoint mapM {A B : Type} (f : A -> result B) (l : list A)
  : result (list B) :=
  match l with
  | [] => Ok []
  | x :: rest => y <- f x ;; ys <- mapM f rest ;; Ok (y :: ys)
  end.

(** ** The Forecast Engine *)

Definition forecast_metrics (df : DataFrame) (months_ahead : Z)
  (scenario_multiplier : float64) : result DataFrame :=
  df_sorted <- sort_values df "date" ;;
  let recent_data := tail df_sorted 6 in
  c_mau <- getcol recent_data "monthly_active_users" ;;
  pc_mau <- pct_change c_mau ;;
  let growth_rate := mean pc_mau in
  c_rev <- getcol recent_data "monthly_revenue" ;;
  pc_rev <- pct_change c_rev ;;
  let revenue_growth := mean pc_rev in
  let adjusted_growth := F64.mul growth_rate scenario_multiplier in
  let adjusted_revenue_growth := F64.mul revenue_growth scenario_multiplier in
  dates <- getcol df_sorted "date" ;;
  let last_date := col_max dates in
  s_mau <- getcol df_sorted "monthly_active_users" ;;
  last_mau <- cells_iloc (col_cells s_mau) (-1) ;;
  s_rev <- getcol df_sorted "monthly_revenue" ;;
  last_revenue <- cells_iloc (col_cells s_rev) (-1) ;;
  forecast_dates <-
    mapM (fun i => add_days last_date (30 * i)) (range1 months_ahead) ;;
  forecast_mau <-
    mapM (fun i => scale last_mau
                     (F64.pow (F64.add F64.one adjusted_growth) (Z.to_nat i)))
         (range1 months_ahead) ;;
  forecast_revenue <-
    mapM (fun i => scale last_revenue
                     (F64.pow (F64.add F64.one adjusted_revenue_growth)
                              (Z.to_nat i)))
         (range1 months_ahead) ;;
  Ok [("date", ColDate forecast_dates);
      ("monthly_active_users", ColFloat forecast_mau);
      ("monthly_revenue", ColFloat forecast_revenue);
      ("type", ColObj (repeat "Forecast" (List.length forecast_dates)))].

(** ** Ingestion *)

(** The library calls of the upload path, and the parsed content of
    [sample_data.csv], which the app loads once at start-up. *)
Class Runtime : Type := {
  df_default : DataFrame;
  b64decode : string -> result (list Byte.byte);
  decode_utf8 : list Byte.byte -> result string;
  read_csv : string -> result DataFrame;
  to_datetime : column -> result (list (option Z))
}.

(** [s.split(sep)] for a one-character separator. *)
Fixpoint split (sep : ascii) (s : string) : list string :=
  match s with
  | EmptyString => [EmptyString]
  | String c rest =>
      if Ascii.eqb c sep
      then EmptyString :: split sep rest
      else match split sep rest with
           | [] => [String c EmptyString]
           | w :: ws => String c w :: ws
           end
  end.

(** [df[key] = c]: replaces the column in place, or appends it. *)
Fixpoint setcol (df : DataFrame) (key : string) (c : column) : DataFrame :=
  match df with
  | [] => [(key, c)]
  | (name, old) :: rest =>
      if String.eqb name key then (name, c) :: rest
      else (name, old) :: setcol rest key c
  end.

Inductive Alert : Type :=
| NoAlert
| Success (filename : string)
| Danger (e : exn).

Section Ingestion.

Context {rt : Runtime}.

(** The body of the [try] block of [update_data]. *)
Definition parse_contents (contents : string) : result DataFrame :=
  match split "," contents with
  | [content_type; content_string] =>
      decoded <- b64decode content_string ;;
      text <- decode_utf8 decoded ;;
      df <- read_csv text ;;
      dates <- getcol df "date" ;;
      parsed <- to_datetime dates ;;
      Ok (setcol df "date" (ColDate parsed))
  | _ => Raise ValueError
  end.

(** [update_data]: the new value of the store and the status line.  The
    store holds the JSON text of a frame; it is represented by the frame. *)
Definition update_data (contents : option string) (filename : string)
  : DataFrame * Alert :=
  match contents with
  | None => (df_default, NoAlert)
  | Some c =>
      match parse_contents c with
      | Ok df => (df, Success filename)
      | Raise e => (df_default, Danger e)
      end
  end.

End Ingestion.

(** ** Views *)

(** An f-string with one formatted field: [f"{pre}{value:spec}{post}"]. *)
Record Text : Type := mkText {
  text_pre : string;
  text_spec : string;
  text_value : cell;
  text_post : string
}.

(** The format code [f] applies to numbers only. *)
Definition format_f (pre spec : string) (v : cell) (post : string)
  : result Text :=
  match v with
  | Int64 _ | Float64 _ => Ok (mkText pre spec v post)
  | _ => Raise ValueError
  end.

Record KPIs : Type := mkKPIs {
  kpi_mau : Text;
  kpi_mau_change : Text;
  kpi_revenue : Text;
  kpi_revenue_change : Text;
  kpi_churn : Text;
  kpi_conversion : Text
}.

Definition update_kpis (df : DataFrame) : result KPIs :=
  metrics <- calculate_metrics df ;;
  t1 <- format_f "" ",.0f" (mau metrics) "" ;;
  t2 <- format_f "↑ " ".1f" (mau_change metrics) "% from last month" ;;
  t3 <- format_f "$" ",.0f" (revenue metrics) "" ;;
  t4 <- format_f "↑ " ".1f" (revenue_change metrics) "% from last month" ;;
  t5 <- format_f "" ".1f" (churn_rate metrics) "%" ;;
  t6 <- format_f "" ".1f" (conversion metrics) "%" ;;
  Ok (mkKPIs t1 t2 t3 t4 t5 t6).

(** One trace of a figure: its kind, its legend name and its data. *)
Record Trace : Type := mkTrace {
  trace_kind : string;
  trace_name : string;
  trace_x : column;
  trace_y : column
}.

Record Figure : Type := mkFigure {
  fig_title : string * option float64;
  fig_traces : list Trace
}.

(** plotly express checks its column arguments itself. *)
Definition px_column (df : DataFrame) (key : string) : result column :=
  match getcol df key with
  | Ok c => Ok c
  | Raise _ => Raise ValueError
  end.

Definition update_growth_chart (df : DataFrame) : result Figure :=
  x <- px_column df "date" ;;
  y <- px_column df "monthly_active_users" ;;
  Ok (mkFigure ("", None) [mkTrace "line" "" x y]).

Definition update_revenue_chart (df : DataFrame) : result Figure :=
  x <- px_column df "date" ;;
  y <- px_column df "monthly_revenue" ;;
  Ok (mkFigure ("", None) [mkTrace "area" "" x y]).

Definition update_forecast (df : DataFrame) (growth_multiplier : float64)
  (months : Z) : result Figure :=
  df_forecast <- forecast_metrics df months growth_multiplier ;;
  h_date <- getcol df "date" ;;
  h_mau <- getcol df "monthly_active_users" ;;
  _ <- getcol df "monthly_revenue" ;;
  f_date <- getcol df_forecast "date" ;;
  f_mau <- getcol df_forecast "monthly_active_users" ;;
  Ok (mkFigure ("Forecast with {}x Growth Rate", Some growth_multiplier)
        [mkTrace "scatter" "Historical MAU" h_date h_mau;
         mkTrace "scatter" "Forecast MAU" f_date f_mau]).

Definition update_engagement_chart (df : DataFrame) : result Figure :=
  x1 <- getcol df "date" ;;
  y1 <- getcol df "new_signups" ;;
  x2 <- getcol df "date" ;;
  y2 <- getcol df "churned_users" ;;
  Ok (mkFigure ("", None)
        [mkTrace "bar" "New Signups" x1 y1;
         mkTrace "bar" "Churned Users" x2 y2]).

(** ** The reactive controller

    The page holds the properties the callbacks read and write.  A view
    that has not been rendered yet is [None]. *)

Record Page : Type := mkPage {
  upload_contents : option string;
  upload_filename : string;
  stored_data : DataFrame;
  upload_status : Alert;
  growth_slider : float64;
  months_slider : Z;
  kpi_panel : option KPIs;
  growth_chart : option Figure;
  revenue_chart : option Figure;
  forecast_chart : option Figure;
  engagement_chart : option Figure
}.

Definition prop_id : Type := string * string.

Definition prop_eqb (p q : prop_id) : bool :=
  String.eqb (fst p) (fst q) && String.eqb (snd p) (snd q).

(** A registered callback: the declaration of [@app.callback] and the
    function it wraps, acting on the page.  [None] when the function
    raises: Dash then leaves the outputs as they were. *)
Record Callback : Type := mkCallback {
  cb_name : string;
  cb_outputs : list prop_id;
  cb_inputs : list prop_id;
  cb_states : list prop_id;
  cb_run : Page -> option Page
}.

Definition set_store (pg : Page) (d : DataFrame) (a : Alert) : Page :=
  mkPage (upload_contents pg) (upload_filename pg) d a
         (growth_slider pg) (months_slider pg) (kpi_panel pg)
         (growth_chart pg) (revenue_chart pg) (forecast_chart pg)
         (engagement_chart pg).

Definition set_kpi_panel (pg : Page) (k : KPIs) : Page :=
  mkPage (upload_contents pg) (upload_filename pg) (stored_data pg)
         (upload_status pg) (growth_slider pg) (months_slider pg) (Some k)
         (growth_chart pg) (revenue_chart pg) (forecast_chart pg)
         (engagement_chart pg).

Definition set_growth_chart (pg : Page) (f : Figure) : Page :=
  mkPage (upload_contents pg) (upload_filename pg) (stored_data pg)
         (upload_status pg) (growth_slider pg) (months_slider pg)
         (kpi_panel pg) (Some f) (revenue_chart pg) (forecast_chart pg)
         (engagement_chart pg).

Definition set_revenue_chart (pg : Page) (f : Figure) : Page :=
  mkPage (upload_contents pg) (upload_filename pg) (stored_data pg)
         (upload_status pg) (growth_slider pg) (months_slider pg)
         (kpi_panel pg) (growth_chart pg) (Some f) (forecast_chart pg)
         (engagement_chart pg).

Definition set_forecast_chart (pg : Page) (f : Figure) : Page :=
  mkPage (upload_contents pg) (upload_filename pg) (stored_data pg)
         (upload_status pg) (growth_slider pg) (months_slider pg)
         (kpi_panel pg) (growth_chart pg) (revenue_chart pg) (Some f)
         (engagement_chart pg).

Definition set_engagement_chart (pg : Page) (f : Figure) : Page :=
  mkPage (upload_contents pg) (upload_filename pg) (stored_data pg)
         (upload_status pg) (growth_slider pg) (months_slider pg)
         (kpi_panel pg) (growth_chart pg) (revenue_chart pg)
         (forecast_chart pg) (Some f).

Definition set_upload (pg : Page) (c : option string) (name : string)
  : Page :=
  mkPage c name (stored_data pg) (upload_status pg) (growth_slider pg)
         (months_slider pg) (kpi_panel pg) (growth_chart pg)
         (revenue_chart pg) (forecast_chart pg) (engagement_chart pg).

Definition set_growth_slider (pg : Page) (v : float64) : Page :=
  mkPage (upload_contents pg) (upload_filename pg) (stored_data pg)
         (upload_status pg) v (months_slider pg) (kpi_panel pg)
         (growth_chart pg) (revenue_chart pg) (forecast_chart pg)
         (engagement_chart pg).

Definition set_months_slider (pg : Page) (v : Z) : Page :=
  mkPage (upload_contents pg) (upload_filename pg) (stored_data pg)
         (upload_status pg) (growth_slider pg) v (kpi_panel pg)
         (growth_chart pg) (revenue_chart pg) (forecast_chart pg)
         (engagement_chart pg).

Definition on_ok {A : Type} (r : result A) (k : A -> Page) : option Page :=
  match r with
  | Ok a => Some (k a)
  | Raise _ => None
  end.

Section Controller.

Context {rt : Runtime}.

Definition callbacks : list Callback :=
  [ mkCallback "update_data"
      [("stored-data", "data"); ("upload-status", "children")]
      [("upload-data", "contents")]
      [("upload-data", "filename")]
      (fun pg =>
         let out := update_data (upload_contents pg) (upload_filename pg) in
         Some (set_store pg (fst out) (snd out)));
    mkCallback "update_kpis"
      [("kpi-mau", "children"); ("kpi-mau-change", "children");
       ("kpi-revenue", "children"); ("kpi-revenue-change", "children");
       ("kpi-churn", "children"); ("kpi-conversion", "children")]
      [("stored-data", "data")]
      []
      (fun pg => on_ok (update_kpis (stored_data pg)) (set_kpi_panel pg));
    mkCallback "update_growth_chart"
      [("growth-chart", "figure")]
      [("stored-data", "data")]
      []
      (fun pg =>
         on_ok (update_growth_chart (stored_data pg)) (set_growth_chart pg));
    mkCallback "update_revenue_chart"
      [("revenue-chart", "figure")]
      [("stored-data", "data")]
      []
      (fun pg =>
         on_ok (update_revenue_chart (stored_data pg))
               (set_revenue_chart pg));
    mkCallback "update_forecast"
      [("forecast-chart", "figure")]
      [("stored-data", "data"); ("growth-slider", "value");
       ("months-slider", "value")]
      []
      (fun pg =>
         on_ok (update_forecast (stored_data pg) (growth_slider pg)
                                (months_slider pg))
               (set_forecast_chart pg));
    mkCallback "update_engagement_chart"
      [("engagement-chart", "figure")]
      [("stored-data", "data")]
      []
      (fun pg =>
         on_ok (update_engagement_chart (stored_data pg))
               (set_engagement_chart pg)) ].

(** A callback is triggered when one of its Inputs changed. *)
Definition triggered (changed : list prop_id) (cb : Callback) : bool :=
  existsb (fun p => existsb (prop_eqb p) changed) (cb_inputs cb).

Definition triggered_by (changed : list prop_id) : list string :=
  map cb_name (filter (triggered changed) callbacks).

(** Dash runs the callbacks triggered by a change, then those triggered
    by the outputs these wrote, and so on. *)
Fixpoint fire (fuel : nat) (changed : list prop_id) (pg : Page) : Page :=
  match fuel with
  | O => pg
  | S fuel' =>
      fold_left
        (fun pg cb =>
           if triggered changed cb
           then match cb_run cb pg with
                | Some pg' => fire fuel' (cb_outputs cb) pg'
                | None => pg
                end
           else pg)
        callbacks pg
  end.

Definition depth : nat := List.length callbacks.

(** The layout: the store starts with the sample data, the sliders with
    their [value]. *)
Definition layout : Page :=
  mkPage None "" df_default NoAlert (F64.of_Z 1) 6 None None None None None.

(** The user drops a file on the upload control. *)
Definition on_upload (pg : Page) (contents : string) (filename : string)
  : Page :=
  fire depth [("upload-data", "contents")]
       (set_upload pg (Some contents) filename).

(** The user moves the growth-rate slider. *)
Definition on_growth_slider (pg : Page) (v : float64) : Page :=
  fire depth [("growth-slider", "value")] (set_growth_slider pg v).

(** The user moves the forecast-months slider. *)
Definition on_months_slider (pg : Page) (v : Z) : Page :=
  fire depth [("months-slider", "value")] (set_months_slider pg v).

End Controller.

(** ** A reference runtime

    Executable models of the library calls on plain input: CPython's
    non-strict base64 decoder, the UTF-8 well-formedness check (a Python
    [str] is held as its UTF-8 text), [read_csv] on comma-separated text
    with a header line, unquoted fields and decimal numbers, and
    [to_datetime] on ISO [YYYY-MM-DD] dates. *)

Module Plain.

Definition code (c : ascii) : Z := Z.of_N (N_of_ascii c).

Definition byte_of_Z (z : Z) : Byte.byte :=
  byte_of_ascii (ascii_of_N (Z.to_N z)).

Definition between (lo hi z : Z) : bool := (lo <=? z) && (z <=? hi).

(** The value of a character of the base64 alphabet. *)
Definition b64_value (c : ascii) : option Z :=
  let n := code c in
  if between 65 90 n then Some (n - 65)
  else if between 97 122 n then Some (n - 71)
  else if between 48 57 n then Some (n + 4)
  else if n =? 43 then Some 62
  else if n =? 47 then Some 63
  else None.

(** [binascii.a2b_base64]: characters outside the alphabet are skipped,
    a complete pad sequence ends the input, and leftover characters of an
    unfinished quad are an error. *)
Fixpoint a2b (s : string) (quad_pos leftchar pads : Z)
  (acc : list Byte.byte) : result (list Byte.byte) :=
  match s with
  | EmptyString =>
      if quad_pos =? 0 then Ok (rev acc) else Raise BinasciiError
  | String c rest =>
      if code c =? 61 then
        if (2 <=? quad_pos) && (4 <=? quad_pos + (pads + 1))
        then Ok (rev acc)
        else a2b rest quad_pos leftchar
                 (if 2 <=? quad_pos then pads + 1 else pads) acc
      else
        match b64_value c with
        | None => a2b rest quad_pos leftchar pads acc
        | Some v =>
            if quad_pos =? 0 then a2b rest 1 v 0 acc
            else if quad_pos =? 1 then
              a2b rest 2 (Z.land v 15) 0
                  (byte_of_Z (Z.lor (Z.shiftl leftchar 2) (Z.shiftr v 4))
                   :: acc)
            else if quad_pos =? 2 then
              a2b rest 3 (Z.land v 3) 0
                  (byte_of_Z (Z.lor (Z.shiftl leftchar 4) (Z.shiftr v 2))
                   :: acc)
            else
              a2b rest 0 0 0
                  (byte_of_Z (Z.lor (Z.shiftl leftchar 6) v) :: acc)
        end
  end.

Definition is_ascii (s : string) : bool :=
  forallb (fun c => code c <? 128) (list_ascii_of_string s).

Definition b64decode (s : string) : result (list Byte.byte) :=
  if is_ascii s then a2b s 0 0 0 [] else Raise ValueError.

(** Well-formed UTF-8 byte sequences. *)
Fixpoint utf8_ok (fuel : nat) (l : list Z) : bool :=
  match fuel with
  | O => match l with [] => true | _ => false end
  | S fuel' =>
      match l with
      | [] => true
      | a :: r1 =>
          if a <? 128 then utf8_ok fuel' r1
          else match r1 with
          | [] => false
          | b :: r2 =>
              if between 194 223 a then
                between 128 191 b && utf8_ok fuel' r2
              else match r2 with
              | [] => false
              | c :: r3 =>
                  if between 224 239 a then
                    (if a =? 224 then between 160 191 b
                     else if a =? 237 then between 128 159 b
                     else between 128 191 b)
                    && between 128 191 c && utf8_ok fuel' r3
                  else match r3 with
                  | [] => false
                  | d :: r4 =>
                      between 240 244 a
                      && (if a =? 240 then between 144 191 b
                          else if a =? 244 then between 128 143 b
                          else between 128 191 b)
                      && between 128 191 c && between 128 191 d
                      && utf8_ok fuel' r4
                  end
              end
          end
      end
  end.

Definition decode_utf8 (b : list Byte.byte) : result string :=
  let codes := map (fun x => code (ascii_of_byte x)) b in
  if utf8_ok (List.length b) codes
  then Ok (string_of_list_byte b)
  else Raise UnicodeDecodeError.

(** Decimal digits. *)
Definition digit (c : ascii) : option Z :=
  let n := code c in
  if between 48 57 n then Some (n - 48) else None.

Fixpoint digits (s : string) (acc : Z) : option Z :=
  match s with
  | EmptyString => Some acc
  | String c rest =>
      match digit c with
      | Some d => digits rest (10 * acc + d)
      | None => None
      end
  end.

Definition natural (s : string) : option Z :=
  match s with
  | EmptyString => None
  | _ => digits s 0
  end.

Definition signed (parse : string -> option Z) (s : string) : option Z :=
  match s with
  | String "-" rest => option_map Z.opp (parse rest)
  | _ => parse s
  end.

Definition parse_int (s : string) : option Z :=
  match signed natural s with
  | Some z => if (- 2 ^ 63 <=? z) && (z <? 2 ^ 63) then Some z else None
  | None => None
  end.

(** [digits.digits], with at least one digit before the point. *)
Definition parse_decimal (s : string) : option float64 :=
  let sign := match s with String "-" _ => (-1) | _ => 1 end in
  let body := match s with String "-" rest => rest | _ => s end in
  match split "." body with
  | [whole] =>
      option_map (fun n => F64.of_Z (sign * n)) (natural whole)
  | [whole; frac] =>
      match natural whole, digits frac 0 with
      | Some n, Some f =>
          let scale := 10 ^ Z.of_nat (String.length frac) in
          Some (F64.Fin (Q2Qc (Qmake (sign * (n * scale + f))
                                     (Z.to_pos scale))))
      | _, _ => None
      end
  | _ => None
  end.

(** A float64 field: a decimal number, or an empty field for NaN. *)
Definition parse_float (s : string) : option float64 :=
  match s with
  | EmptyString => Some F64.NaN
  | _ => parse_decimal s
  end.

Fixpoint all_some {A : Type} (l : list (option A)) : option (list A) :=
  match l with
  | [] => Some []
  | Some x :: rest => option_map (cons x) (all_some rest)
  | None :: _ => None
  end.

(** dtype inference of one column. *)
Definition infer (fields : list string) : column :=
  match fields with
  | [] => ColObj []
  | _ =>
      match all_some (map parse_int fields) with
      | Some ints => ColInt ints
      | None =>
          match all_some (map parse_float fields) with
          | Some floats => ColFloat floats
          | None => ColObj fields
          end
      end
  end.

Definition strip_cr (s : string) : string :=
  match rev (list_ascii_of_string s) with
  | c :: r =>
      if code c =? 13 then string_of_list_ascii (rev r) else s
  | [] => s
  end.

Definition lines (text : string) : list string :=
  filter (fun l => negb (String.eqb l ""))
         (map strip_cr (split "010" text)).

Definition field_at (k : nat) (row : list string) : string :=
  nth k row "".

Definition read_csv (text : string) : result DataFrame :=
  match map (split ",") (lines text) with
  | [] => Raise ParserError
  | header :: rows =>
      if forallb (fun r => (List.length r <=? List.length header)%nat) rows
      then Ok (map (fun kn => (snd kn, infer (map (field_at (fst kn)) rows)))
                   (combine (seq 0 (List.length header)) header))
      else Raise ParserError
  end.

(** Days from 1970-01-01 to a date of the proleptic Gregorian calendar. *)
Definition days_from_civil (y m d : Z) : Z :=
  let y' := if m <=? 2 then y - 1 else y in
  let era := y' / 400 in
  let yoe := y' - era * 400 in
  let mp := (m + 9) mod 12 in
  let doy := (153 * mp + 2) / 5 + d - 1 in
  let doe := yoe * 365 + yoe / 4 - yoe / 100 + doy in
  era * 146097 + doe - 719468.

Definition leap (y : Z) : bool :=
  ((y mod 4 =? 0) && negb (y mod 100 =? 0)) || (y mod 400 =? 0).

Definition month_days (y m : Z) : Z :=
  if m =? 2 then (if leap y then 29 else 28)
  else if (m =? 4) || (m =? 6) || (m =? 9) || (m =? 11) then 30
  else 31.

Definition parse_date (s : string) : option Z :=
  match split "-" s with
  | [ys; ms; ds] =>
      if ((String.length ys =? 4) && (String.length ms =? 2)
          && (String.length ds =? 2))%nat
      then match natural ys, natural ms, natural ds with
           | Some y, Some m, Some d =>
               if between 1 12 m && between 1 (month_days y m) d
               then Some (days_from_civil y m d * ns_per_day)
               else None
           | _, _, _ => None
           end
      else None
  | _ => None
  end.

Definition to_datetime (c : column) : result (list (option Z)) :=
  match c with
  | ColDate l => Ok l
  | ColInt l => Ok (map Some l)
  | ColObj l =>
      match all_some (map parse_date l) with
      | Some ts => Ok (map Some ts)
      | None => Raise DateParseError
      end
  | ColFloat l =>
      match all_some (map (fun x => match x with
                                    | F64.Fin q => Some (Some (Qfloor q))
                                    | F64.NaN => Some None
                                    | _ => None
                                    end) l) with
      | Some ts => Ok ts
      | None => Raise DateParseError
      end
  end.

End Plain.

(** [sample_data.csv] is not among the sources; this three-month series
    stands in for it in the reference runtime. *)
Definition jan : Z := 19723 * ns_per_day.
Definition feb : Z := 19754 * ns_per_day.
Definition mar : Z := 19783 * ns_per_day.

Definition sample : Dataset :=
  [ mkRecord jan 1000 (F64.of_Z 50000) 120 40 (F64.of_Z 3);
    mkRecord feb 1100 (F64.of_Z 55000) 150 60 (F64.of_Z 4);
    mkRecord mar 1210 (F64.of_Z 60500) 180 55 (F64.of_Z 5) ].

#[export] Instance plain_runtime : Runtime := {
  df_default := to_frame sample;
  b64decode := Plain.b64decode;
  decode_utf8 := Plain.decode_utf8;
  read_csv := Plain.read_csv;
  to_datetime := Plain.to_datetime
}.

(** ** The validity invariant of a committed frame *)

Definition metric_columns : list string :=
  ["monthly_active_users"; "monthly_revenue"; "new_signups";
   "churned_users"; "conversion_rate"].

Definition numeric (c : column) : bool :=
  match c with
  | ColInt _ | ColFloat _ => true
  | _ => false
  end.

(** The dates of a frame whose [date] column is present and fully
    parsed. *)
Definition parsed_dates (df : DataFrame) : option (list Z) :=
  match getcol df "date" with
  | Ok (ColDate l) => Plain.all_some l
  | _ => None
  end.

Definition schema_ok (df : DataFrame) : bool :=
  match parsed_dates df with
  | Some _ =>
      forallb (fun k => match getcol df k with
                        | Ok c => numeric c
                        | Raise _ => false
                        end) metric_columns
  | None => false
  end.

Fixpoint ascending (l : list Z) : bool :=
  match l with
  | [] => true
  | x :: rest =>
      match rest with
      | [] => true
      | y :: _ => (x <=? y) && ascending rest
      end
  end.

Fixpoint distinct (l : list Z) : bool :=
  match l with
  | [] => true
  | x :: rest => negb (existsb (Z.eqb x) rest) && distinct rest
  end.

Definition sorted_by_date (df : DataFrame) : bool :=
  match parsed_dates df with
  | Some l => ascending l
  | None => false
  end.

Definition no_duplicate_dates (df : DataFrame) : bool :=
  match parsed_dates df with
  | Some l => distinct l
  | None => false
  end.

Definition frame_valid (df : DataFrame) : bool :=
  schema_ok df && sorted_by_date df && no_duplicate_dates df.

(** What the code computes from the last two rows, before any
    simplification of the arithmetic. *)
Definition computed_snapshot (previous latest : MetricRecord) : Metrics :=
  {| mau := Int64 (monthly_active_users latest);
     mau_change :=
       Float64
         (F64.mul
            (F64.div
               (F64.of_Z (I64.wrap (monthly_active_users latest
                                    - monthly_active_users previous)))
               (F64.of_Z (monthly_active_users previous)))
            (F64.of_Z 100));
     revenue := Float64 (monthly_revenue latest);
     revenue_change :=
       Float64 (percent_change (monthly_revenue latest)
                               (monthly_revenue previous));
     churn_rate :=
       Float64 (percent_of (F64.of_Z (churned_users latest))
                           (F64.of_Z (monthly_active_users previous)));
     conversion := Float64 (conversion_rate latest) |}.

(** A two-month series whose first month has no active users. *)
Definition zero_base : Dataset :=
  [ mkRecord jan 0 (F64.of_Z 0) 0 0 (F64.of_Z 0);
    mkRecord feb 5 (F64.of_Z 10) 5 0 (F64.of_Z 0) ].

(** What the Forecast Engine computes on a sorted Dataset, step by step:
    the mean change of the trailing window, and the series compounded
    from the latest record. *)
Definition window (ds : Dataset) : Dataset := lastn 6 ds.

Definition mau_growth (ds : Dataset) : float64 :=
  mean (changes (map F64.of_Z (map monthly_active_users (window ds)))).

Definition revenue_growth (ds : Dataset) : float64 :=
  mean (changes (ffill (map monthly_revenue (window ds)))).

Definition compound (last adjusted : float64) (months : Z) : list float64 :=
  map (fun i => F64.mul last
                  (F64.pow (F64.add F64.one adjusted) (Z.to_nat i)))
      (range1 months).

Definition forecast_frame (latest : MetricRecord)
  (adjusted_growth adjusted_revenue_growth : float64) (months : Z)
  : DataFrame :=
  [("date",
    ColDate (map (fun i => Some (date latest + 30 * i * ns_per_day))
                 (range1 months)));
   ("monthly_active_users",
    ColFloat (compound (F64.of_Z (monthly_active_users latest))
                       adjusted_growth months));
   ("monthly_revenue",
    ColFloat (compound (monthly_revenue latest)
                       adjusted_revenue_growth months));
   ("type", ColObj (repeat "Forecast" (Z.to_nat months)))].

(** The projected dates as the code computes them, each addition checked,
    and the frame built from them. *)
Definition forecast_dates (last_date months : Z)
  : result (list (option Z)) :=
  mapM (fun i => add_days (Timestamp last_date) (30 * i)) (range1 months).

Definition forecast_on (dates : list (option Z)) (latest : MetricRecord)
  (adjusted_growth adjusted_revenue_growth : float64) (months : Z)
  : DataFrame :=
  [("date", ColDate dates);
   ("monthly_active_users",
    ColFloat (compound (F64.of_Z (monthly_active_users latest))
                       adjusted_growth months));
   ("monthly_revenue",
    ColFloat (compound (monthly_revenue latest)
                       adjusted_revenue_growth months));
   ("type", ColObj (repeat "Forecast" (List.length dates)))].

(** The horizon stays within the Timestamps: the date is one, the
    timedelta of [30 * months] days fits in int64 nanoseconds, and the
    date that many days later is a Timestamp too. *)
Definition horizon_in_range (last_date months : Z) : Prop :=
  - max_ns <= last_date /\
  30 * months * ns_per_day <= max_ns /\
  last_date + 30 * months * ns_per_day <= max_ns.

Definition dates_in_range (ds : Dataset) (months : Z) : Prop :=
  Forall (fun r => horizon_in_range (date r) months) ds.

(** ** The reference definition of the forecast

    The design's formulas over the rationals: the month-over-month change
    of a series, its mean, and the compounded projection. *)

Definition qz (z : Z) : Qc := Q2Qc (inject_Z z).


Fixpoint rates_from (prev : Qc) (l : list Qc) : list Qc :=
  match l with
  | [] => []
  | x :: rest => (x / prev - 1)%Qc :: rates_from x rest
  end.

Definition rates (l : list Qc) : list Qc :=
  match l with
  | [] => []
  | x :: rest => rates_from x rest
  end.

Definition qsum (l : list Qc) : Qc := fold_left Qcplus l 0%Qc.

Definition average (l : list Qc) : Qc :=
  (qsum l / qz (Z.of_nat (List.length l)))%Qc.

Definition growth_rate (values : list Qc) : Qc := average (rates values).







(** A series that loses nine users in ten from one month to the next. *)
Definition shrinking : Dataset :=
  [ mkRecord jan 1000 (F64.of_Z 50000) 120 40 (F64.of_Z 3);
    mkRecord feb 100 (F64.of_Z 50000) 10 900 (F64.of_Z 3) ].

(** The series without a point. *)
Definition empty_forecast : DataFrame :=
  [("date", ColDate []);
   ("monthly_active_users", ColFloat []);
   ("monthly_revenue", ColFloat []);
   ("type", ColObj [])].

(** The series of a Dataset of one record: every projection is NaN. *)
Definition nan_forecast (r : MetricRecord) (months : Z) : DataFrame :=
  [("date",
    ColDate (map (fun i => Some (date r + 30 * i * ns_per_day))
                 (range1 months)));
   ("monthly_active_users", ColFloat (repeat F64.NaN (Z.to_nat months)));
   ("monthly_revenue", ColFloat (repeat F64.NaN (Z.to_nat months)));
   ("type", ColObj (repeat "Forecast" (Z.to_nat months)))].

(** ** Uploads used in the examples

    Each is the [contents] string the upload control delivers for the CSV
    text quoted above it.  The header line of the first four files names
    the columns [date], [monthly_active_users], [monthly_revenue],
    [new_signups], [churned_users] and [conversion_rate]. *)

(** The header, then
    [2024-01-01,0,0.0,0,0,0.0] and [2024-02-01,5,10.0,5,0,0.0]. *)
Definition small_upload : string :=
  "data:text/csv;base64,ZGF0ZSxtb250aGx5X2FjdGl2ZV91c2Vycyxtb250aGx5X3JldmVudWUsbmV3X3NpZ251cHMsY2h1cm5lZF91c2Vycyxjb252ZXJzaW9uX3JhdGUKMjAyNC0wMS0wMSwwLDAuMCwwLDAsMC4wCjIwMjQtMDItMDEsNSwxMC4wLDUsMCwwLjAK".

(** The header, then
    [2024-02-01,1100,55000.0,150,60,4.0] and
    [2024-01-01,1000,50000.0,120,40,3.0]: February before January. *)
Definition unsorted_upload : string :=
  "data:text/csv;base64,ZGF0ZSxtb250aGx5X2FjdGl2ZV91c2Vycyxtb250aGx5X3JldmVudWUsbmV3X3NpZ251cHMsY2h1cm5lZF91c2Vycyxjb252ZXJzaW9uX3JhdGUKMjAyNC0wMi0wMSwxMTAwLDU1MDAwLjAsMTUwLDYwLDQuMAoyMDI0LTAxLTAxLDEwMDAsNTAwMDAuMCwxMjAsNDAsMy4wCg==".

(** The header, then
    [2024-01-01,1000,50000.0,120,40,3.0] and
    [2024-01-01,1100,55000.0,150,60,4.0]: the same date twice. *)
Definition duplicate_upload : string :=
  "data:text/csv;base64,ZGF0ZSxtb250aGx5X2FjdGl2ZV91c2Vycyxtb250aGx5X3JldmVudWUsbmV3X3NpZ251cHMsY2h1cm5lZF91c2Vycyxjb252ZXJzaW9uX3JhdGUKMjAyNC0wMS0wMSwxMDAwLDUwMDAwLjAsMTIwLDQwLDMuMAoyMDI0LTAxLTAxLDExMDAsNTUwMDAuMCwxNTAsNjAsNC4wCg==".

(** The header, then
    [2024-01-01,many,50000.0,120,40,3.0] and
    [2024-02-01,1100,55000.0,150,60,4.0]: a word for a user count. *)
Definition text_upload : string :=
  "data:text/csv;base64,ZGF0ZSxtb250aGx5X2FjdGl2ZV91c2Vycyxtb250aGx5X3JldmVudWUsbmV3X3NpZ251cHMsY2h1cm5lZF91c2Vycyxjb252ZXJzaW9uX3JhdGUKMjAyNC0wMS0wMSxtYW55LDUwMDAwLjAsMTIwLDQwLDMuMAoyMDI0LTAyLTAxLDExMDAsNTUwMDAuMCwxNTAsNjAsNC4wCg==".

(** [month,monthly_active_users] and [2024-01-01,1000]: no [date]
    column. *)
Definition undated_upload : string :=
  "data:text/csv;base64,bW9udGgsbW9udGhseV9hY3RpdmVfdXNlcnMKMjAyNC0wMS0wMSwxMDAwCg==".

(** The page after [small_upload] has been loaded into the layout. *)
Definition uploaded_page : Page :=
  on_upload layout small_upload "small.csv".

(** The value of a view after its callback ran on the frame [df]: the
    new rendering, or the old one when the callback raised. *)
Definition rendered {A : Type} (r : result A) (old : option A) : option A :=
  match r with
  | Ok a => Some a
  | Raise _ => old
  end.

(** The reference meaning of "sorted by date": insertion of each record
    before the first record that is not older. *)
Fixpoint insert_record (r : MetricRecord) (l : Dataset) : Dataset :=
  match l with
  | [] => [r]
  | x :: rest =>
      if date r <=? date x then r :: l else x :: insert_record r rest
  end.

Fixpoint sort_by_date (ds : Dataset) : Dataset :=
  match ds with
  | [] => []
  | r :: rest => insert_record r (sort_by_date rest)
  end.

(** The sample series with its first two rows exchanged. *)
Definition shuffled : Dataset :=
  [ mkRecord feb 1100 (F64.of_Z 55000) 150 60 (F64.of_Z 4);
    mkRecord jan 1000 (F64.of_Z 50000) 120 40 (F64.of_Z 3);
    mkRecord mar 1210 (F64.of_Z 60500) 180 55 (F64.of_Z 5) ].

(** The [i]-th projected point as the code computes it, for adjusted
    growth rates that may be infinite or NaN. *)
Definition projected_row (latest : MetricRecord)
  (adjusted adjusted_revenue : float64) (i : Z) : Series :=
  [("date", Timestamp (date latest + 30 * i * ns_per_day));
   ("monthly_active_users",
    Float64 (F64.mul (F64.of_Z (monthly_active_users latest))
                     (F64.pow (F64.add F64.one adjusted) (Z.to_nat i))));
   ("monthly_revenue",
    Float64 (F64.mul (monthly_revenue latest)
                     (F64.pow (F64.add F64.one adjusted_revenue)
                              (Z.to_nat i))));
   ("type", Str "Forecast")].

(** ** Proof automation *)


(** Symbolic execution of the callback graph, the callbacks themselves
    kept folded. *)
Ltac run_controller :=
  cbn -[update_forecast update_kpis update_growth_chart
        update_revenue_chart update_engagement_chart parse_contents].

Ltac split_views d :=
  destruct (update_kpis d); run_controller;
  destruct (update_growth_chart d); run_controller;
  destruct (update_revenue_chart d); run_controller;
  try (match goal with
       | |- context [update_forecast d ?v ?m] =>
           destruct (update_forecast d v m); run_controller
       end);
  destruct (update_engagement_chart d); run_controller.

(** Validity of a concrete Dataset, by evaluation. *)
Ltac valid_by_eval :=
  split;
  [ repeat constructor; cbn; try lia; unfold Qcle, Qle; cbn; lia
  | cbn; unfold jan, feb, mar, ns_per_day; lia ].



(** ** The start-up loader and the events of a session *)

Section Loading.

Context {rt : Runtime}.

(** [load_default_data], given the text of [sample_data.csv]. *)
Definition load_default_data (text : string) : result DataFrame :=
  df <- read_csv text ;;
  dates <- getcol df "date" ;;
  parsed <- to_datetime dates ;;
  Ok (setcol df "date" (ColDate parsed)).

(** What the user does on the page. *)
Inductive event : Type :=
| Upload (contents filename : string)
| MoveGrowth (v : float64)
| MoveMonths (h : Z).

Definition react (pg : Page) (ev : event) : Page :=
  match ev with
  | Upload contents filename => on_upload pg contents filename
  | MoveGrowth v => on_growth_slider pg v
  | MoveMonths h => on_months_slider pg h
  end.

(** The page after a sequence of events. *)
Definition session (pg : Page) (events : list event) : Page :=
  fold_left react events pg.

End Loading.

(** The last upload of a sequence of events. *)
Fixpoint last_upload (events : list event) : option (string * string) :=
  match events with
  | [] => None
  | ev :: rest =>
      match last_upload rest with
      | Some u => Some u
      | None =>
          match ev with
          | Upload contents filename => Some (contents, filename)
          | _ => None
          end
      end
  end.

(** A frame whose columns all have the length of the frame. *)
Definition rectangular (df : DataFrame) : Prop :=
  Forall (fun nc => col_len (snd nc) = len df) df.

(** The names of the columns, in order. *)
Definition column_names (df : DataFrame) : list string := map fst df.

(** How often the character [c] occurs in [s]. *)
Fixpoint occurrences (c : ascii) (s : string) : nat :=
  match s with
  | EmptyString => O
  | String a rest =>
      if Ascii.eqb a c then S (occurrences c rest) else occurrences c rest
  end.

(** [date,visits], then [2024-01-01,10] and [2024-02-01,20]: dates, but
    none of the metric columns. *)
Definition dates_only_upload : string :=
  "data:text/csv;base64,ZGF0ZSx2aXNpdHMKMjAyNC0wMS0wMSwxMAoyMDI0LTAyLTAxLDIwCg==".

(** April to September 2024, after the sample series. *)
Definition half_year : Dataset :=
  [ mkRecord (19814 * ns_per_day) 1300 (F64.of_Z 65000) 190 60 (F64.of_Z 5);
    mkRecord (19844 * ns_per_day) 1400 (F64.of_Z 70000) 200 70 (F64.of_Z 5);
    mkRecord (19875 * ns_per_day) 1450 (F64.of_Z 72000) 160 80 (F64.of_Z 4);
    mkRecord (19905 * ns_per_day) 1500 (F64.of_Z 75000) 170 90 (F64.of_Z 4);
    mkRecord (19936 * ns_per_day) 1600 (F64.of_Z 81000) 210 75 (F64.of_Z 6);
    mkRecord (19967 * ns_per_day) 1700 (F64.of_Z 86000) 220 85 (F64.of_Z 6) ].

(** The records of the sample series. *)
Definition january : MetricRecord :=
  mkRecord jan 1000 (F64.of_Z 50000) 120 40 (F64.of_Z 3).

Definition february : MetricRecord :=
  mkRecord feb 1100 (F64.of_Z 55000) 150 60 (F64.of_Z 4).

Definition march : MetricRecord :=
  mkRecord mar 1210 (F64.of_Z 60500) 180 55 (F64.of_Z 5).

(** One step of a successful computation: the first call returned. *)
Ltac step_bind H :=
  match type of H with
  | bind ?r _ = _ =>
      let E := fresh "E" in
      destruct r eqn:E; cbn [bind] in H; [|discriminate H]
  end.

(** * Properties *)

(** ** Arithmetic *)

Lemma wrap_in_range (z : Z) : I64.in_range z -> I64.wrap z = z.
Proof.
  unfold I64.in_range, I64.wrap. intros H.
  rewrite Z.mod_small; lia.
Qed.

Lemma of_Z_sub (a b : Z) :
  F64.of_Z (a - b) = F64.sub (F64.of_Z a) (F64.of_Z b).
Proof.
  unfold F64.of_Z, F64.sub, F64.neg, F64.add. f_equal.
  apply Qc_is_canon. unfold Qcplus, Qcopp, Q2Qc. cbn [this].
  rewrite !Qred_correct. unfold Z.sub.
  rewrite inject_Z_plus, inject_Z_opp. reflexivity.
Qed.

(** ** Rows of the frame of a Dataset *)

Lemma len_to_frame (ds : Dataset) : len (to_frame ds) = List.length ds.
Proof.
  unfold len, to_frame, col_len, col_cells.
  now rewrite !length_map.
Qed.

Lemma row_at_to_frame (ds : Dataset) (k : nat) :
  row_at (to_frame ds) k =
  match nth_error ds k with
  | Some r => Ok (to_row r)
  | None => Raise IndexError
  end.
Proof.
  unfold to_frame, row_at, col_cells.
  rewrite !nth_error_map.
  destruct (nth_error ds k); reflexivity.
Qed.

Lemma position_last (n : nat) :
  (1 <= n)%nat -> position n (-1) = Some (n - 1)%nat.
Proof.
  intros H. unfold position. change (-1 <? 0) with true. cbv iota.
  destruct (Z.leb_spec 0 (-1 + Z.of_nat n)); try lia.
  destruct (Z.ltb_spec (-1 + Z.of_nat n) (Z.of_nat n)); try lia.
  cbn [andb]. f_equal. lia.
Qed.

Lemma position_previous (n : nat) :
  (2 <= n)%nat -> position n (-2) = Some (n - 2)%nat.
Proof.
  intros H. unfold position. change (-2 <? 0) with true. cbv iota.
  destruct (Z.leb_spec 0 (-2 + Z.of_nat n)); try lia.
  destruct (Z.ltb_spec (-2 + Z.of_nat n) (Z.of_nat n)); try lia.
  cbn [andb]. f_equal. lia.
Qed.

Lemma iloc_latest (pre : Dataset) (previous latest : MetricRecord) :
  iloc (to_frame (pre ++ [previous; latest])) (-1) = Ok (to_row latest).
Proof.
  unfold iloc. rewrite len_to_frame, position_last, row_at_to_frame.
  - rewrite length_app. cbn [List.length].
    rewrite nth_error_app2 by lia.
    replace (List.length pre + 2 - 1 - List.length pre)%nat with 1%nat by lia.
    reflexivity.
  - rewrite length_app. simpl. lia.
Qed.

Lemma iloc_previous (pre : Dataset) (previous latest : MetricRecord) :
  iloc (to_frame (pre ++ [previous; latest])) (-2) = Ok (to_row previous).
Proof.
  unfold iloc. rewrite len_to_frame, position_previous, row_at_to_frame.
  - rewrite length_app. cbn [List.length].
    rewrite nth_error_app2 by lia.
    replace (List.length pre + 2 - 2 - List.length pre)%nat with 0%nat by lia.
    reflexivity.
  - rewrite length_app. simpl. lia.
Qed.

(** Every list of at least two records ends with a previous and a latest
    record. *)
Lemma last_two (ds : Dataset) :
  (2 <= List.length ds)%nat ->
  exists pre previous latest, ds = pre ++ [previous; latest].
Proof.
  intros H.
  destruct (exists_last (l := ds)) as [l1 [latest E1]].
  { intros ->. simpl in H. lia. }
  subst ds. rewrite length_app in H. simpl in H.
  destruct (exists_last (l := l1)) as [pre [previous E2]].
  { intros ->. simpl in H. lia. }
  subst l1. exists pre, previous, latest.
  now rewrite <- app_assoc.
Qed.

Lemma calculate_metrics_last_two (pre : Dataset)
  (previous latest : MetricRecord) :
  calculate_metrics (to_frame (pre ++ [previous; latest])) =
  Ok (computed_snapshot previous latest).
Proof.
  unfold calculate_metrics.
  rewrite iloc_latest, iloc_previous. reflexivity.
Qed.

Lemma calculate_metrics_short (ds : Dataset) :
  (List.length ds < 2)%nat ->
  calculate_metrics (to_frame ds) = Raise IndexError.
Proof.
  intros H. unfold calculate_metrics, iloc.
  rewrite len_to_frame.
  destruct ds as [|r [|r' rest]]; simpl in H; try lia; reflexivity.
Qed.

Lemma valid_no_wrap (previous latest : MetricRecord) :
  valid_record previous -> valid_record latest ->
  I64.wrap (monthly_active_users latest - monthly_active_users previous) =
  monthly_active_users latest - monthly_active_users previous.
Proof.
  intros [Hp _ _ _ _] [Hl _ _ _ _].
  apply wrap_in_range. unfold I64.in_range. lia.
Qed.

Lemma computed_is_reference (previous latest : MetricRecord) :
  valid_record previous -> valid_record latest ->
  computed_snapshot previous latest = kpi_snapshot previous latest.
Proof.
  intros Hp Hl. unfold computed_snapshot, kpi_snapshot, percent_change.
  now rewrite (valid_no_wrap _ _ Hp Hl), of_Z_sub.
Qed.

Lemma valid_dataset_app (l1 l2 : Dataset) :
  valid_dataset (l1 ++ l2) -> Forall valid_record l2.
Proof.
  intros [H _]. apply Forall_app in H. tauto.
Qed.

(** ** The Metrics Calculator *)

(** C1.  On a Dataset of at least two records the Metrics Calculator
    returns the snapshot of the reference definitions: the latest MAU and
    revenue, their percentage change against the previous record, the
    churn rate on the previous month's base and the latest conversion
    rate; a previous MAU of 1000 and a latest MAU of 1100 give a change of
    10. *)
Theorem calculate_metrics_reference (ds : Dataset) :
  valid_dataset ds ->
  (2 <= List.length ds)%nat ->
  exists pre previous latest,
    ds = pre ++ [previous; latest] /\
    calculate_metrics (to_frame ds) = Ok (kpi_snapshot previous latest) /\
    (monthly_active_users previous = 1000 ->
     monthly_active_users latest = 1100 ->
     mau_change (kpi_snapshot previous latest) = Float64 (F64.of_Z 10)).
Proof.
  intros Hv Hn.
  destruct (last_two ds Hn) as (pre & previous & latest & ->).
  exists pre, previous, latest.
  pose proof (valid_dataset_app _ _ Hv) as Hl.
  inversion Hl as [|? ? Hp Hl']; subst.
  inversion Hl' as [|? ? Hq _]; subst.
  split; [reflexivity|]. split.
  - rewrite calculate_metrics_last_two. f_equal.
    now apply computed_is_reference.
  - intros E1 E2. unfold kpi_snapshot, mau_change. rewrite E1, E2.
    unfold percent_change. f_equal.
    unfold F64.sub, F64.neg, F64.add, F64.of_Z, F64.div, F64.mul.
    cbn. f_equal. apply Qc_is_canon. reflexivity.
Qed.

(** C10.  Two Datasets that end with the same two records have the same
    snapshot, whatever their earlier records are. *)
Theorem calculate_metrics_last_two_only (pre pre' : Dataset)
  (previous latest : MetricRecord) :
  calculate_metrics (to_frame (pre ++ [previous; latest])) =
  calculate_metrics (to_frame (pre' ++ [previous; latest])).
Proof.
  now rewrite !calculate_metrics_last_two.
Qed.

Lemma zero_base_not_finite (x : float64) :
  F64.is_finite (F64.mul (F64.div x (F64.of_Z 0)) (F64.of_Z 100)) = false.
Proof.
  destruct x as [q| | |]; try reflexivity.
  unfold F64.div, F64.of_Z. cbn.
  destruct (F64.sgn q); reflexivity.
Qed.

(** C3, as the code has it.  The Metrics Calculator fails exactly on a
    Dataset of fewer than two records, with the IndexError of the
    positional lookup, which the KPI callback passes on.  On every longer
    Dataset it returns a snapshot, also when the previous MAU is 0: the
    MAU change and the churn rate are then infinite or NaN. *)
Theorem calculate_metrics_errors (ds : Dataset) :
  ((List.length ds < 2)%nat ->
   calculate_metrics (to_frame ds) = Raise IndexError /\
   update_kpis (to_frame ds) = Raise IndexError) /\
  ((2 <= List.length ds)%nat ->
   exists pre previous latest m,
     ds = pre ++ [previous; latest] /\
     calculate_metrics (to_frame ds) = Ok m /\
     (monthly_active_users previous = 0 ->
      exists x y,
        mau_change m = Float64 x /\ F64.is_finite x = false /\
        churn_rate m = Float64 y /\ F64.is_finite y = false)).
Proof.
  split.
  - intros Hn. unfold update_kpis.
    now rewrite (calculate_metrics_short ds Hn).
  - intros Hn.
    destruct (last_two ds Hn) as (pre & previous & latest & ->).
    exists pre, previous, latest, (computed_snapshot previous latest).
    split; [reflexivity|]. split.
    + apply calculate_metrics_last_two.
    + intros E. eexists. eexists.
      split; [reflexivity|]. split; [|split; [reflexivity|]].
      * rewrite E. apply zero_base_not_finite.
      * unfold percent_of. rewrite E. apply zero_base_not_finite.
Qed.

(** C3, counterexample.  The previous record of [zero_base] has no active
    users; the Metrics Calculator signals nothing and returns infinite and
    NaN fields. *)
Lemma calculate_metrics_zero_base :
  (exists latest, zero_base = [mkRecord jan 0 (F64.of_Z 0) 0 0 (F64.of_Z 0);
                               latest]) /\
  exists m,
    calculate_metrics (to_frame zero_base) = Ok m /\
    mau_change m = Float64 F64.PInf /\
    revenue_change m = Float64 F64.PInf /\
    churn_rate m = Float64 F64.NaN.
Proof.
  split.
  - eexists. reflexivity.
  - eexists. split; [vm_compute; reflexivity|].
    repeat split.
Qed.

(** ** Sorting a sorted frame *)

Lemma insert_key_head {K : Type} (le : K -> K -> bool)
  (x : option K * nat) (l : list (option K * nat)) :
  match l with
  | [] => True
  | y :: _ => key_le le (fst x) (fst y) = true
  end ->
  insert_key le x l = x :: l.
Proof.
  destruct l as [|y l]; simpl; [reflexivity|].
  now intros ->.
Qed.

Lemma sort_keys_increasing (l : list Z) (start : nat) :
  increasing l ->
  sort_keys Z.leb (combine (map Some l) (seq start (List.length l))) =
  combine (map Some l) (seq start (List.length l)).
Proof.
  revert start. induction l as [|x l IH]; intros start H; [reflexivity|].
  cbn [map List.length seq combine sort_keys].
  destruct l as [|y l].
  - reflexivity.
  - destruct H as [Hxy Hl].
    rewrite (IH (S start) Hl).
    apply insert_key_head. cbn. apply Z.leb_le. lia.
Qed.

Lemma map_snd_combine {A B : Type} (l : list A) (l' : list B) :
  List.length l = List.length l' -> map snd (combine l l') = l'.
Proof.
  revert l'. induction l as [|a l IH]; intros [|b l'] H;
    simpl in *; try congruence.
  f_equal. apply IH. congruence.
Qed.

Lemma argsort_increasing (l : list Z) :
  increasing l ->
  argsort Z.leb (map Some l) = seq 0 (List.length l).
Proof.
  intros H. unfold argsort. rewrite length_map.
  rewrite (sort_keys_increasing l 0 H).
  apply map_snd_combine. now rewrite length_map, length_seq.
Qed.

Lemma take_app_seq {A : Type} (l1 l2 : list A) :
  take (l1 ++ l2) (seq (List.length l1) (List.length l2)) = l2.
Proof.
  revert l1. induction l2 as [|x l2 IH]; intros l1; [reflexivity|].
  cbn [List.length seq]. unfold take in *. cbn [flat_map].
  rewrite nth_error_app2 by lia. rewrite Nat.sub_diag. cbn [nth_error app].
  f_equal.
  replace (l1 ++ x :: l2) with ((l1 ++ [x]) ++ l2)
    by now rewrite <- app_assoc.
  replace (S (List.length l1)) with (List.length (l1 ++ [x]))
    by (rewrite length_app; simpl; lia).
  apply IH.
Qed.

Lemma take_all {A : Type} (l : list A) (n : nat) :
  n = List.length l -> take l (seq 0 n) = l.
Proof.
  intros ->. apply (take_app_seq [] l).
Qed.

Lemma sort_values_to_frame (ds : Dataset) :
  increasing (map date ds) ->
  sort_values (to_frame ds) "date" = Ok (to_frame ds).
Proof.
  intros H. unfold sort_values.
  change (getcol (to_frame ds) "date")
    with (Ok (ColDate (map (fun r => Some (date r)) ds))).
  cbn [bind argsort_col].
  replace (map (fun r => Some (date r)) ds) with (map Some (map date ds))
    by now rewrite map_map.
  rewrite (argsort_increasing _ H), length_map.
  unfold frame_map, to_frame. cbn [map fst snd col_map].
  rewrite !take_all by now rewrite ?length_map.
  reflexivity.
Qed.

Lemma lastn_map {A B : Type} (f : A -> B) (n : nat) (l : list A) :
  lastn n (map f l) = map f (lastn n l).
Proof.
  unfold lastn. now rewrite length_map, skipn_map.
Qed.

Lemma tail_to_frame (ds : Dataset) (n : nat) :
  tail (to_frame ds) n = to_frame (lastn n ds).
Proof.
  unfold tail, frame_map, to_frame. cbn [map fst snd col_map].
  now rewrite !lastn_map.
Qed.

(** ** The last row of a sorted frame *)

Lemma somes_map_Some {A : Type} (l : list A) : somes (map Some l) = l.
Proof.
  induction l as [|x l IH]; simpl; congruence.
Qed.

Lemma max_by_increasing (l : list Z) (m : Z) :
  increasing (m :: l) ->
  fold_left (fun acc x =>
               match acc with
               | None => Some x
               | Some m => if m <? x then Some x else Some m
               end) l (Some m) = Some (last (m :: l) 0).
Proof.
  revert m. induction l as [|x l IH]; intros m H; [reflexivity|].
  destruct H as [Hmx Hl]. cbn [fold_left].
  replace (m <? x) with true by (symmetry; apply Z.ltb_lt; lia).
  now rewrite (IH x Hl).
Qed.

Lemma col_max_dates (pre : Dataset) (latest : MetricRecord) :
  increasing (map date (pre ++ [latest])) ->
  col_max (ColDate (map (fun r => Some (date r)) (pre ++ [latest]))) =
  Timestamp (date latest).
Proof.
  intros H. unfold col_max, max_by.
  replace (map (fun r => Some (date r)) (pre ++ [latest]))
    with (map Some (map date (pre ++ [latest]))) by now rewrite map_map.
  rewrite somes_map_Some.
  destruct (map date (pre ++ [latest])) as [|d l] eqn:E.
  - destruct pre; discriminate.
  - cbn [fold_left]. rewrite (max_by_increasing l d H).
    rewrite <- E, map_app. cbn [map]. now rewrite last_last.
Qed.

Lemma cells_iloc_last (l : list cell) (c : cell) :
  cells_iloc (l ++ [c]) (-1) = Ok c.
Proof.
  unfold cells_iloc. rewrite position_last.
  - rewrite length_app. cbn [List.length].
    rewrite nth_error_app2 by lia.
    replace (List.length l + 1 - 1 - List.length l)%nat with 0%nat by lia.
    reflexivity.
  - rewrite length_app. cbn [List.length]. lia.
Qed.

Lemma mapM_ok {A B : Type} (f : A -> result B) (g : A -> B) (l : list A) :
  (forall x, In x l -> f x = Ok (g x)) -> mapM f l = Ok (map g l).
Proof.
  induction l as [|x l IH]; intros H; [reflexivity|].
  cbn [mapM map]. rewrite (H x (or_introl eq_refl)). cbn [bind].
  rewrite IH; [reflexivity|].
  intros y Hy. apply H. now right.
Qed.

Lemma length_range1 (n : Z) : List.length (range1 n) = Z.to_nat n.
Proof.
  unfold range1. now rewrite length_map, length_seq.
Qed.

Lemma range1_nonpositive (n : Z) : n <= 0 -> range1 n = [].
Proof.
  intros H. unfold range1.
  replace (Z.to_nat n) with 0%nat by lia. reflexivity.
Qed.

Lemma range1_positive (n i : Z) : In i (range1 n) -> 1 <= i <= n.
Proof.
  unfold range1. rewrite in_map_iff.
  intros (k & <- & Hk). apply in_seq in Hk. lia.
Qed.

(** ** The Forecast Engine on a sorted Dataset *)

Lemma forecast_metrics_dates (pre : Dataset) (latest : MetricRecord)
  (months : Z) (multiplier : float64) :
  increasing (map date (pre ++ [latest])) ->
  forecast_metrics (to_frame (pre ++ [latest])) months multiplier =
  (dates <- forecast_dates (date latest) months ;;
   Ok (forecast_on dates latest
         (F64.mul (mau_growth (pre ++ [latest])) multiplier)
         (F64.mul (revenue_growth (pre ++ [latest])) multiplier)
         months)).
Proof.
  intros H. unfold forecast_metrics.
  rewrite (sort_values_to_frame _ H). cbn [bind].
  rewrite tail_to_frame.
  change (getcol (to_frame (lastn 6 (pre ++ [latest])))
                 "monthly_active_users")
    with (Ok (ColInt (map monthly_active_users (window (pre ++ [latest]))))).
  change (getcol (to_frame (lastn 6 (pre ++ [latest]))) "monthly_revenue")
    with (Ok (ColFloat (map monthly_revenue (window (pre ++ [latest]))))).
  cbn [bind pct_change].
  change (getcol (to_frame (pre ++ [latest])) "date")
    with (Ok (ColDate (map (fun r => Some (date r)) (pre ++ [latest])))).
  change (getcol (to_frame (pre ++ [latest])) "monthly_active_users")
    with (Ok (ColInt (map monthly_active_users (pre ++ [latest])))).
  change (getcol (to_frame (pre ++ [latest])) "monthly_revenue")
    with (Ok (ColFloat (map monthly_revenue (pre ++ [latest])))).
  cbn [bind col_cells].
  rewrite (col_max_dates _ _ H).
  rewrite !map_app. cbn [map]. rewrite !cells_iloc_last. cbn [bind].
  fold (mau_growth (pre ++ [latest])).
  fold (revenue_growth (pre ++ [latest])).
  fold (forecast_dates (date latest) months).
  destruct (forecast_dates (date latest) months) as [dates|e];
    cbn [bind]; [|reflexivity].
  rewrite (mapM_ok _
    (fun i => F64.mul (F64.of_Z (monthly_active_users latest))
                (F64.pow (F64.add F64.one
                   (F64.mul (mau_growth (pre ++ [latest])) multiplier))
                   (Z.to_nat i)))) by reflexivity.
  cbn [bind].
  rewrite (mapM_ok _
    (fun i => F64.mul (monthly_revenue latest)
                (F64.pow (F64.add F64.one
                   (F64.mul (revenue_growth (pre ++ [latest])) multiplier))
                   (Z.to_nat i)))) by reflexivity.
  reflexivity.
Qed.

Lemma add_days_in_range (t months i : Z) :
  horizon_in_range t months ->
  1 <= i <= months ->
  add_days (Timestamp t) (30 * i) = Ok (Some (t + 30 * i * ns_per_day)).
Proof.
  intros (Hlo & Hd & Hhi) Hi. unfold add_days, timedelta, in_ns_range.
  unfold max_ns, ns_per_day in *.
  destruct (Z.leb_spec (Z.abs (30 * i)) 999999999); [|lia].
  cbn [bind].
  destruct (Z.leb_spec (- (2 ^ 63 - 1))
              (30 * i * (86400 * 1000000000))); [|lia].
  destruct (Z.leb_spec (30 * i * (86400 * 1000000000))
              (2 ^ 63 - 1)); [|lia].
  destruct (Z.leb_spec (- (2 ^ 63 - 1))
              (t + 30 * i * (86400 * 1000000000))); [|lia].
  destruct (Z.leb_spec (t + 30 * i * (86400 * 1000000000))
              (2 ^ 63 - 1)); [|lia].
  reflexivity.
Qed.

Lemma forecast_dates_in_range (t months : Z) :
  horizon_in_range t months ->
  forecast_dates t months =
  Ok (map (fun i => Some (t + 30 * i * ns_per_day)) (range1 months)).
Proof.
  intros H. unfold forecast_dates. apply mapM_ok.
  intros i Hi. apply (add_days_in_range t months i H).
  now apply range1_positive.
Qed.

Lemma forecast_dates_nonpositive (t months : Z) :
  months <= 0 -> forecast_dates t months = Ok [].
Proof.
  intros H. unfold forecast_dates. now rewrite range1_nonpositive.
Qed.

Lemma forecast_metrics_sorted (pre : Dataset) (latest : MetricRecord)
  (months : Z) (multiplier : float64) :
  increasing (map date (pre ++ [latest])) ->
  horizon_in_range (date latest) months ->
  forecast_metrics (to_frame (pre ++ [latest])) months multiplier =
  Ok (forecast_frame latest
        (F64.mul (mau_growth (pre ++ [latest])) multiplier)
        (F64.mul (revenue_growth (pre ++ [latest])) multiplier)
        months).
Proof.
  intros H R. rewrite (forecast_metrics_dates _ _ _ _ H).
  rewrite (forecast_dates_in_range _ _ R). cbn [bind].
  unfold forecast_on, forecast_frame.
  now rewrite length_map, length_range1.
Qed.

Lemma dates_in_range_last (pre : Dataset) (latest : MetricRecord)
  (months : Z) :
  dates_in_range (pre ++ [latest]) months ->
  horizon_in_range (date latest) months.
Proof.
  intros H. apply Forall_app in H. destruct H as [_ H].
  now inversion H.
Qed.

Lemma forecast_metrics_empty (months : Z) (multiplier : float64) :
  forecast_metrics (to_frame []) months multiplier = Raise IndexError.
Proof. reflexivity. Qed.

(** ** Extended arithmetic on finite values *)

Lemma sgn_Q2Qc (q : Q) : F64.sgn (Q2Qc q) = Z.sgn (Qnum q).
Proof.
  unfold F64.sgn, Q2Qc. cbn [this].
  pose proof (Qred_correct q) as H. unfold Qeq in H.
  destruct (Qred q) as [n d], q as [n' d']. cbn [Qnum Qden] in *.
  destruct n, n'; cbn in *; try reflexivity; discriminate.
Qed.

Lemma sgn_qz (z : Z) : F64.sgn (qz z) = Z.sgn z.
Proof. unfold qz. now rewrite sgn_Q2Qc. Qed.

Lemma sgn_zero (q : Qc) : F64.sgn q = 0 -> q = 0%Qc.
Proof.
  unfold F64.sgn. intros H. apply Qc_is_canon.
  apply (proj1 (Z.sgn_null_iff _)) in H. unfold Qeq. rewrite H. reflexivity.
Qed.

Lemma sgn_nonzero (q : Qc) : q <> 0%Qc -> (F64.sgn q =? 0) = false.
Proof.
  intros H. apply Z.eqb_neq. intros E. now apply H, sgn_zero.
Qed.

Lemma qz_nonzero (z : Z) : z <> 0 -> qz z <> 0%Qc.
Proof.
  intros H E. apply (f_equal F64.sgn) in E.
  rewrite sgn_qz in E. change (F64.sgn 0%Qc) with 0 in E.
  apply (proj1 (Z.sgn_null_iff _)) in E. contradiction.
Qed.


Lemma div_finite (a b : Qc) :
  b <> 0%Qc -> F64.div (F64.Fin a) (F64.Fin b) = F64.Fin (a / b)%Qc.
Proof.
  intros H. unfold F64.div. now rewrite sgn_nonzero.
Qed.



(** ** The growth rate of a window without zeros *)












(** ** The points of the projected series *)

Lemma position_nonneg (n : nat) (j : Z) :
  0 <= j < Z.of_nat n -> position n j = Some (Z.to_nat j).
Proof.
  intros H. unfold position.
  destruct (Z.ltb_spec j 0); try lia.
  destruct (Z.leb_spec 0 j); try lia.
  destruct (Z.ltb_spec j (Z.of_nat n)); try lia.
  reflexivity.
Qed.

Lemma nth_error_range1 (n i : Z) :
  1 <= i <= n -> nth_error (range1 n) (Z.to_nat (i - 1)) = Some i.
Proof.
  intros H. unfold range1.
  rewrite nth_error_map, nth_error_seq.
  destruct (Nat.ltb_spec (Z.to_nat (i - 1)) (Z.to_nat n)); [|lia].
  cbn [option_map]. f_equal. lia.
Qed.

Lemma iloc_forecast_frame (latest : MetricRecord) (a b : float64)
  (months i : Z) :
  1 <= i <= months ->
  iloc (forecast_frame latest a b months) (i - 1) =
  Ok (projected_row latest a b i).
Proof.
  intros H. unfold iloc, forecast_frame, projected_row, compound.
  unfold len, col_len, col_cells, row_at.
  rewrite !length_map, length_range1.
  rewrite position_nonneg by lia. cbn [col_cells].
  rewrite !nth_error_map, (nth_error_range1 months i H).
  rewrite nth_error_repeat by lia.
  reflexivity.
Qed.


(** ** Sorting an unsorted frame *)

Lemma take_map {A B : Type} (f : A -> B) (l : list A) (idx : list nat) :
  take (map f l) idx = map f (take l idx).
Proof.
  unfold take. induction idx as [|i idx IH]; [reflexivity|].
  cbn [flat_map]. rewrite map_app, IH, nth_error_map.
  now destruct (nth_error l i).
Qed.

Lemma sort_values_rows (ds : Dataset) :
  sort_values (to_frame ds) "date" =
  Ok (to_frame
        (take ds (argsort Z.leb (map (fun r => Some (date r)) ds)))).
Proof.
  unfold sort_values.
  change (getcol (to_frame ds) "date")
    with (Ok (ColDate (map (fun r => Some (date r)) ds))).
  cbn [bind argsort_col].
  unfold frame_map, to_frame. cbn [map fst snd col_map].
  now rewrite !take_map.
Qed.

(** A list of (key, position) pairs stands for the rows it points to. *)
Lemma insert_key_rows (rows : Dataset) (x : MetricRecord) (s : nat)
  (ps : list (option Z * nat)) (rs : Dataset) :
  nth_error rows s = Some x ->
  Forall2 (fun p r => fst p = Some (date r) /\
                      nth_error rows (snd p) = Some r) ps rs ->
  Forall2 (fun p r => fst p = Some (date r) /\
                      nth_error rows (snd p) = Some r)
          (insert_key Z.leb (Some (date x), s) ps) (insert_record x rs).
Proof.
  intros Hx H. induction H as [|p r ps rs [Hk Hr] H IH].
  - cbn. constructor; [now split|constructor].
  - cbn [insert_key insert_record fst]. rewrite Hk. cbn [key_le].
    destruct (date x <=? date r).
    + constructor; [now split|]. constructor; [now split|exact H].
    + constructor; [now split|exact IH].
Qed.

Lemma sort_keys_rows (pre l : Dataset) :
  Forall2 (fun p r => fst p = Some (date r) /\
                      nth_error (pre ++ l) (snd p) = Some r)
          (sort_keys Z.leb
             (combine (map (fun r => Some (date r)) l)
                      (seq (List.length pre) (List.length l))))
          (sort_by_date l).
Proof.
  revert pre. induction l as [|x l IH]; intros pre; [constructor|].
  cbn [map List.length seq combine sort_keys sort_by_date].
  apply insert_key_rows.
  - rewrite nth_error_app2 by lia. now rewrite Nat.sub_diag.
  - specialize (IH (pre ++ [x])).
    rewrite <- app_assoc in IH. cbn [app] in IH.
    rewrite length_app in IH. cbn [List.length] in IH.
    now rewrite Nat.add_1_r in IH.
Qed.

Lemma take_rows (rows : Dataset) (ps : list (option Z * nat))
  (rs : Dataset) :
  Forall2 (fun p r => fst p = Some (date r) /\
                      nth_error rows (snd p) = Some r) ps rs ->
  take rows (map snd ps) = rs.
Proof.
  unfold take. induction 1 as [|p r ps rs [_ Hr] _ IH]; [reflexivity|].
  cbn [map flat_map]. now rewrite Hr, IH.
Qed.

Lemma argsort_rows (ds : Dataset) :
  take ds (argsort Z.leb (map (fun r => Some (date r)) ds)) =
  sort_by_date ds.
Proof.
  unfold argsort. rewrite length_map.
  apply take_rows. apply (sort_keys_rows [] ds).
Qed.

Lemma insert_record_perm (r : MetricRecord) (l : Dataset) :
  Permutation (insert_record r l) (r :: l).
Proof.
  induction l as [|x l IH]; cbn [insert_record]; [reflexivity|].
  destruct (date r <=? date x); [reflexivity|].
  rewrite IH. apply perm_swap.
Qed.

Lemma sort_by_date_perm (ds : Dataset) : Permutation (sort_by_date ds) ds.
Proof.
  induction ds as [|r ds IH]; cbn [sort_by_date]; [reflexivity|].
  rewrite insert_record_perm. now constructor.
Qed.

(** Insertion keeps every record at most as old as those after it. *)
Lemma insert_record_sorted (r : MetricRecord) (l : Dataset) :
  ForallOrdPairs (fun a b => date a <= date b) l ->
  ForallOrdPairs (fun a b => date a <= date b) (insert_record r l).
Proof.
  induction 1 as [|x l Hx Hl IH]; cbn [insert_record].
  - repeat constructor.
  - destruct (Z.leb_spec (date r) (date x)).
    + constructor; [|now constructor].
      constructor; [assumption|].
      eapply Forall_impl; [|exact Hx]. cbn. intros; lia.
    + constructor; [|exact IH].
      rewrite (insert_record_perm r l). constructor; [lia|exact Hx].
Qed.

Lemma sort_by_date_sorted (ds : Dataset) :
  ForallOrdPairs (fun a b => date a <= date b) (sort_by_date ds).
Proof.
  induction ds as [|r ds IH]; cbn [sort_by_date]; [constructor|].
  now apply insert_record_sorted.
Qed.

Lemma increasing_pairs (l : Dataset) :
  increasing (map date l) ->
  ForallOrdPairs (fun a b => date a < date b) l.
Proof.
  induction l as [|x l IH]; intros H; [constructor|].
  destruct l as [|y l]; [repeat constructor|].
  destruct H as [Hxy Hl]. specialize (IH Hl).
  constructor; [|exact IH].
  inversion IH as [|? ? Hy _]; subst.
  constructor; [exact Hxy|].
  eapply Forall_impl; [|exact Hy]. cbn. intros; lia.
Qed.

Lemma sorted_unique (l1 l2 : Dataset) :
  Permutation l1 l2 ->
  ForallOrdPairs (fun a b => date a <= date b) l1 ->
  ForallOrdPairs (fun a b => date a < date b) l2 ->
  l1 = l2.
Proof.
  revert l1. induction l2 as [|y l2 IH]; intros l1 P S1 S2.
  - now apply Permutation_sym, Permutation_nil in P.
  - destruct l1 as [|x l1].
    + now apply Permutation_nil in P.
    + inversion S1 as [|? ? Hx S1']; subst.
      inversion S2 as [|? ? Hy S2']; subst.
      assert (E : x = y).
      { assert (Ix : In x (y :: l2))
          by (eapply Permutation_in; [exact P|now left]).
        assert (Iy : In y (x :: l1))
          by (eapply Permutation_in;
              [apply Permutation_sym; exact P|now left]).
        destruct Ix as [->|Ix]; [reflexivity|].
        destruct Iy as [->|Iy]; [reflexivity|].
        rewrite Forall_forall in Hx, Hy.
        specialize (Hx y Iy). specialize (Hy x Ix). lia. }
      subst y. f_equal.
      apply IH; try assumption.
      now apply Permutation_cons_inv in P.
Qed.

Lemma sort_by_date_permutation (raw ds : Dataset) :
  Permutation raw ds ->
  increasing (map date ds) ->
  sort_by_date raw = ds.
Proof.
  intros P H. apply sorted_unique.
  - now rewrite sort_by_date_perm.
  - apply sort_by_date_sorted.
  - now apply increasing_pairs.
Qed.

(** The Forecast Engine does not depend on the order of the rows. *)
Lemma forecast_metrics_any_order (raw ds : Dataset) (months : Z)
  (multiplier : float64) :
  Permutation raw ds ->
  increasing (map date ds) ->
  forecast_metrics (to_frame raw) months multiplier =
  forecast_metrics (to_frame ds) months multiplier.
Proof.
  intros P H. unfold forecast_metrics.
  rewrite (sort_values_rows raw), argsort_rows.
  rewrite (sort_by_date_permutation raw ds P H).
  now rewrite (sort_values_to_frame ds H).
Qed.

(** ** The window of a valid Dataset *)

Lemma valid_increasing (ds : Dataset) :
  valid_dataset ds -> increasing (map date ds).
Proof. now intros [_ H]. Qed.







Lemma nonempty_last (ds : Dataset) :
  ds <> [] -> exists pre latest, ds = pre ++ [latest].
Proof.
  intros H. destruct (exists_last H) as (pre & latest & ->).
  now exists pre, latest.
Qed.

(** ** The Forecast Engine *)


Lemma map_constant {A B : Type} (f : A -> B) (b : B) (l : list A) :
  (forall x, In x l -> f x = b) -> map f l = repeat b (List.length l).
Proof.
  induction l as [|x l IH]; intros H; [reflexivity|].
  cbn [map List.length repeat]. f_equal.
  - apply H. now left.
  - apply IH. intros y Hy. apply H. now right.
Qed.

Lemma mul_nan_r (x : float64) : F64.mul x F64.NaN = F64.NaN.
Proof. destruct x; reflexivity. Qed.

Lemma compound_nan (last : float64) (months : Z) :
  compound last F64.NaN months = repeat F64.NaN (Z.to_nat months).
Proof.
  unfold compound. rewrite <- (length_range1 months).
  apply map_constant. intros i Hi.
  apply range1_positive in Hi.
  destruct (Z.to_nat i) as [|k] eqn:E; [lia|].
  cbn [F64.pow]. change (F64.add F64.one F64.NaN) with F64.NaN.
  cbn [F64.mul]. apply mul_nan_r.
Qed.

Lemma single_growth (x : float64) : mean (changes (ffill [x])) = F64.NaN.
Proof.
  unfold ffill. cbn [ffill_from]. destruct (F64.is_nan x); reflexivity.
Qed.

(** C5, as the code has it.  On a Dataset of exactly one record, for a
    horizon whose dates are Timestamps, the Forecast Engine signals
    nothing: it returns [months] points whose projected MAU and revenue
    are all NaN.  On the empty Dataset the positional lookup of the last
    row raises IndexError. *)
Theorem forecast_metrics_short_history (r : MetricRecord) (months : Z)
  (multiplier : float64) :
  dates_in_range [r] months ->
  forecast_metrics (to_frame [r]) months multiplier =
    Ok (nan_forecast r months) /\
  forecast_metrics (to_frame []) months multiplier = Raise IndexError.
Proof.
  intros Hd. split; [|reflexivity].
  change [r] with ([] ++ [r]) in *.
  rewrite (forecast_metrics_sorted [] r months multiplier I
             (dates_in_range_last _ _ _ Hd)).
  unfold forecast_frame, nan_forecast.
  change (mau_growth ([] ++ [r])) with F64.NaN.
  change (revenue_growth ([] ++ [r]))
    with (mean (changes (ffill [monthly_revenue r]))).
  rewrite single_growth. cbn [F64.mul].
  now rewrite !compound_nan.
Qed.

(** C5, counterexample.  On the one-record Dataset the Forecast Engine
    returns a series of NaN values instead of an error. *)
Lemma forecast_metrics_single_record :
  forecast_metrics
    (to_frame [mkRecord jan 1000 (F64.of_Z 50000) 120 40 (F64.of_Z 3)])
    3 (F64.of_Z 1) =
  Ok [("date", ColDate [Some (jan + 30 * ns_per_day);
                        Some (jan + 60 * ns_per_day);
                        Some (jan + 90 * ns_per_day)]);
      ("monthly_active_users", ColFloat [F64.NaN; F64.NaN; F64.NaN]);
      ("monthly_revenue", ColFloat [F64.NaN; F64.NaN; F64.NaN]);
      ("type", ColObj ["Forecast"; "Forecast"; "Forecast"])].
Proof. vm_compute. reflexivity. Qed.

(** C8, as the code has it.  For a horizon of zero or fewer months the
    Forecast Engine rejects nothing: on every non-empty Dataset it returns
    the series without a point. *)
Theorem forecast_metrics_nonpositive_horizon (ds : Dataset) (months : Z)
  (multiplier : float64) :
  valid_dataset ds ->
  ds <> [] ->
  months <= 0 ->
  forecast_metrics (to_frame ds) months multiplier = Ok empty_forecast.
Proof.
  intros Hv Hne Hm.
  destruct (nonempty_last ds Hne) as (pre & latest & ->).
  rewrite (forecast_metrics_dates pre latest months multiplier
             (valid_increasing _ Hv)).
  rewrite (forecast_dates_nonpositive _ _ Hm). cbn [bind].
  unfold forecast_on, compound, empty_forecast.
  rewrite (range1_nonpositive months Hm).
  reflexivity.
Qed.

(** C8, counterexample.  Horizons 0 and -3 are accepted and give an empty
    series. *)
Lemma forecast_metrics_zero_horizon :
  forecast_metrics (to_frame sample) 0 (F64.of_Z 1) = Ok empty_forecast /\
  forecast_metrics (to_frame sample) (-3) (F64.of_Z 1) = Ok empty_forecast.
Proof. split; vm_compute; reflexivity. Qed.

(** ** Sign of the projection *)



















(** ** The cascade of callbacks settles *)

Lemma fold_left_ext_in {A B : Type} (f g : A -> B -> A) (l : list B)
  (a : A) :
  (forall a b, In b l -> f a b = g a b) ->
  fold_left f l a = fold_left g l a.
Proof.
  revert a. induction l as [|b l IH]; intros a H; [reflexivity|].
  cbn [fold_left]. rewrite (H a b (or_introl eq_refl)).
  apply IH. intros a' b' Hb. apply H. now right.
Qed.

Lemma fire_step (rt : Runtime) (n : nat) (changed : list prop_id)
  (pg : Page) :
  fire (S n) changed pg =
  fold_left
    (fun pg cb =>
       if triggered changed cb
       then match cb_run cb pg with
            | Some pg' => fire n (cb_outputs cb) pg'
            | None => pg
            end
       else pg)
    callbacks pg.
Proof. reflexivity. Qed.

(** A change that triggers no callback leaves the page as it is. *)
Lemma fire_quiet (rt : Runtime) (n : nat) (changed : list prop_id)
  (pg : Page) :
  triggered_by changed = [] -> fire n changed pg = pg.
Proof.
  intros H. destruct n as [|n]; [reflexivity|].
  rewrite fire_step. unfold triggered_by in H.
  apply map_eq_nil in H.
  revert pg. induction callbacks as [|cb l IH]; intros pg; [reflexivity|].
  cbn [filter] in H. cbn [fold_left].
  destruct (triggered changed cb); [discriminate|].
  now apply IH.
Qed.

Lemma fire_outputs (rt : Runtime) (cb : Callback) (n : nat) (pg : Page) :
  In cb callbacks ->
  fire (S n) (cb_outputs cb) pg = fire 1 (cb_outputs cb) pg.
Proof.
  intros Hcb.
  destruct Hcb as [<-|Hcb].
  - rewrite !fire_step. apply fold_left_ext_in.
    intros pg0 cb' Hin.
    destruct (triggered _ cb') eqn:T; [|reflexivity].
    destruct (cb_run cb' pg0) as [pg'|]; [|reflexivity].
    cbn [fire]. apply fire_quiet.
    repeat (destruct Hin as [<-|Hin]; [try discriminate T; reflexivity|]).
    destruct Hin.
  - repeat (destruct Hcb as [<-|Hcb];
            [now rewrite !fire_quiet by reflexivity|]).
    destruct Hcb.
Qed.

(** Two rounds are enough: more fuel does not change the outcome. *)
Lemma fire_settles (rt : Runtime) (n : nat) (changed : list prop_id)
  (pg : Page) :
  fire (2 + n) changed pg = fire 2 changed pg.
Proof.
  cbn [Nat.add]. rewrite (fire_step rt (S n)), (fire_step rt 1).
  apply fold_left_ext_in. intros pg0 cb Hin.
  destruct (triggered changed cb); [|reflexivity].
  destruct (cb_run cb pg0) as [pg'|]; [|reflexivity].
  now apply fire_outputs.
Qed.

Lemma fire_depth (rt : Runtime) (n : nat) (changed : list prop_id)
  (pg : Page) :
  fire (depth + n) changed pg = fire depth changed pg.
Proof.
  change (depth + n)%nat with (2 + (4 + n))%nat.
  change depth with (2 + 4)%nat.
  now rewrite !fire_settles.
Qed.

(** ** Ingestion *)

(** C4, as the code has it.  A failed upload does not keep the prior
    Dataset: it stores the default sample data, shows the error, and
    every view is computed against the default data.  The prior Dataset
    survives only if it was the default.  Further rounds of the cascade
    change nothing. *)
Theorem failed_upload_stores_default (rt : Runtime) (pg : Page)
  (contents filename : string) (e : exn) :
  parse_contents contents = Raise e ->
  let pg' := on_upload pg contents filename in
  (forall n,
     fire (depth + n) [("upload-data", "contents")]
          (set_upload pg (Some contents) filename) = pg') /\
  stored_data pg' = df_default /\
  upload_status pg' = Danger e /\
  kpi_panel pg' = rendered (update_kpis df_default) (kpi_panel pg) /\
  growth_chart pg' =
    rendered (update_growth_chart df_default) (growth_chart pg) /\
  revenue_chart pg' =
    rendered (update_revenue_chart df_default) (revenue_chart pg) /\
  forecast_chart pg' =
    rendered (update_forecast df_default (growth_slider pg)
                              (months_slider pg))
             (forecast_chart pg) /\
  engagement_chart pg' =
    rendered (update_engagement_chart df_default) (engagement_chart pg) /\
  (stored_data pg = df_default -> stored_data pg' = stored_data pg).
Proof.
  intros H pg'. subst pg'.
  split; [intros n; apply fire_depth|].
  unfold on_upload. change depth with (2 + 4)%nat. rewrite fire_settles.
  run_controller. rewrite H. run_controller.
  split_views df_default; repeat split; congruence.
Qed.

(** C4, counterexample.  After [small_upload] was committed, an upload
    that is not a data URL fails; the store then holds the sample data,
    not the Dataset that was canonical before the attempt. *)
Lemma failed_upload_loses_prior :
  getcol (stored_data uploaded_page) "monthly_active_users" =
    Ok (ColInt [0; 5]) /\
  parse_contents "hello" = Raise ValueError /\
  getcol (stored_data (on_upload uploaded_page "hello" "notes.txt"))
         "monthly_active_users" = Ok (ColInt [1000; 1100; 1210]) /\
  stored_data (on_upload uploaded_page "hello" "notes.txt") <>
  stored_data uploaded_page.
Proof.
  split; [vm_compute; reflexivity|].
  split; [vm_compute; reflexivity|].
  split; [vm_compute; reflexivity|].
  intros E.
  apply (f_equal (fun df => getcol df "monthly_active_users")) in E.
  vm_compute in E. discriminate E.
Qed.

Lemma getcol_setcol_same (df : DataFrame) (key : string) (c : column) :
  getcol (setcol df key c) key = Ok c.
Proof.
  induction df as [|[name old] df IH]; cbn [setcol getcol].
  - now rewrite String.eqb_refl.
  - destruct (String.eqb name key) eqn:E; cbn [getcol]; rewrite E.
    + reflexivity.
    + exact IH.
Qed.

Lemma getcol_setcol_other (df : DataFrame) (key key' : string)
  (c : column) :
  key' <> key -> getcol (setcol df key c) key' = getcol df key'.
Proof.
  intros H. induction df as [|[name old] df IH]; cbn [setcol getcol].
  - destruct (String.eqb_spec key key'); [congruence|reflexivity].
  - destruct (String.eqb_spec name key) as [->|Hn]; cbn [getcol].
    + destruct (String.eqb_spec key key'); [congruence|reflexivity].
    + destruct (String.eqb name key'); [reflexivity|exact IH].
Qed.

(** C7, as the code has it.  An upload is committed exactly when it is a
    two-part data URL whose payload decodes, parses as CSV, has a [date]
    column, and all its dates parse; the committed frame is the parsed
    one with the date column converted, every other column and the order
    of the rows as read.  Any other upload is answered with the error and
    the default sample data. *)
Theorem update_data_checks (rt : Runtime) (contents filename : string) :
  match parse_contents contents with
  | Ok df =>
      update_data (Some contents) filename = (df, Success filename) /\
      exists content_type content_string decoded text raw dates parsed,
        split "," contents = [content_type; content_string] /\
        b64decode content_string = Ok decoded /\
        decode_utf8 decoded = Ok text /\
        read_csv text = Ok raw /\
        getcol raw "date" = Ok dates /\
        to_datetime dates = Ok parsed /\
        df = setcol raw "date" (ColDate parsed) /\
        getcol df "date" = Ok (ColDate parsed) /\
        (forall key, key <> "date" -> getcol df key = getcol raw key)
  | Raise e =>
      update_data (Some contents) filename = (df_default, Danger e)
  end /\
  (forall content_type content_string decoded text raw dates parsed,
     split "," contents = [content_type; content_string] ->
     b64decode content_string = Ok decoded ->
     decode_utf8 decoded = Ok text ->
     read_csv text = Ok raw ->
     getcol raw "date" = Ok dates ->
     to_datetime dates = Ok parsed ->
     update_data (Some contents) filename =
     (setcol raw "date" (ColDate parsed), Success filename)).
Proof.
  split.
  - unfold update_data.
    destruct (parse_contents contents) as [df|e] eqn:P; [|reflexivity].
    split; [reflexivity|].
    unfold parse_contents in P.
    destruct (split "," contents) as [|content_type [|content_string [|]]];
      try discriminate.
    destruct (b64decode content_string) as [decoded|] eqn:E1;
      cbn [bind] in P; try discriminate.
    destruct (decode_utf8 decoded) as [text|] eqn:E2;
      cbn [bind] in P; try discriminate.
    destruct (read_csv text) as [raw|] eqn:E3;
      cbn [bind] in P; try discriminate.
    destruct (getcol raw "date") as [dates|] eqn:E4;
      cbn [bind] in P; try discriminate.
    destruct (to_datetime dates) as [parsed|] eqn:E5;
      cbn [bind] in P; try discriminate.
    injection P as <-.
    exists content_type, content_string, decoded, text, raw, dates, parsed.
    repeat split; try assumption; try reflexivity.
    + apply getcol_setcol_same.
    + intros key H. now apply getcol_setcol_other.
  - intros content_type content_string decoded text raw dates parsed
      E0 E1 E2 E3 E4 E5.
    unfold update_data, parse_contents.
    rewrite E0, E1. cbn [bind]. rewrite E2. cbn [bind].
    rewrite E3. cbn [bind]. rewrite E4. cbn [bind].
    rewrite E5. reflexivity.
Qed.

(** C7, counterexample.  Three uploads are committed although the frame
    is not valid: one with February before January, one with the same
    date twice, and one with a word in the user count. *)
Lemma invalid_uploads_committed :
  (let out := update_data (Some unsorted_upload) "unsorted.csv" in
   snd out = Success "unsorted.csv" /\
   parsed_dates (fst out) = Some [feb; jan] /\
   sorted_by_date (fst out) = false /\
   frame_valid (fst out) = false) /\
  (let out := update_data (Some duplicate_upload) "twice.csv" in
   snd out = Success "twice.csv" /\
   parsed_dates (fst out) = Some [jan; jan] /\
   no_duplicate_dates (fst out) = false /\
   frame_valid (fst out) = false) /\
  (let out := update_data (Some text_upload) "text.csv" in
   snd out = Success "text.csv" /\
   getcol (fst out) "monthly_active_users" = Ok (ColObj ["many"; "1100"]) /\
   schema_ok (fst out) = false /\
   frame_valid (fst out) = false).
Proof.
  repeat split; vm_compute; reflexivity.
Qed.

(** ** The reactive controller *)

(** C9.  A change of a scenario parameter triggers the forecast callback
    and no other: the store, the KPI panel and the growth, revenue and
    engagement charts are left as they were, and the forecast chart is
    recomputed from the stored Dataset and the new parameters.  The KPI
    panel and the growth, revenue and engagement charts read the store
    and nothing else, the forecast figure does change with either
    parameter, and further rounds of the cascade change nothing. *)
Theorem scenario_change_recomputes_forecast_only (rt : Runtime) (pg : Page)
  (v : float64) (h : Z) :
  triggered_by [("growth-slider", "value")] = ["update_forecast"] /\
  triggered_by [("months-slider", "value")] = ["update_forecast"] /\
  triggered_by [("stored-data", "data")] =
    ["update_kpis"; "update_growth_chart"; "update_revenue_chart";
     "update_forecast"; "update_engagement_chart"] /\
  map (fun cb => (cb_name cb, cb_inputs cb ++ cb_states cb)) callbacks =
    [("update_data",
      [("upload-data", "contents"); ("upload-data", "filename")]);
     ("update_kpis", [("stored-data", "data")]);
     ("update_growth_chart", [("stored-data", "data")]);
     ("update_revenue_chart", [("stored-data", "data")]);
     ("update_forecast",
      [("stored-data", "data"); ("growth-slider", "value");
       ("months-slider", "value")]);
     ("update_engagement_chart", [("stored-data", "data")])] /\
  (let pg' := on_growth_slider pg v in
   stored_data pg' = stored_data pg /\
   kpi_panel pg' = kpi_panel pg /\
   growth_chart pg' = growth_chart pg /\
   revenue_chart pg' = revenue_chart pg /\
   engagement_chart pg' = engagement_chart pg /\
   forecast_chart pg' =
     rendered (update_forecast (stored_data pg) v (months_slider pg))
              (forecast_chart pg) /\
   forall n,
     fire (depth + n) [("growth-slider", "value")]
          (set_growth_slider pg v) = pg') /\
  (let pg' := on_months_slider pg h in
   stored_data pg' = stored_data pg /\
   kpi_panel pg' = kpi_panel pg /\
   growth_chart pg' = growth_chart pg /\
   revenue_chart pg' = revenue_chart pg /\
   engagement_chart pg' = engagement_chart pg /\
   forecast_chart pg' =
     rendered (update_forecast (stored_data pg) (growth_slider pg) h)
              (forecast_chart pg) /\
   forall n,
     fire (depth + n) [("months-slider", "value")]
          (set_months_slider pg h) = pg') /\
  update_forecast (to_frame sample) (F64.of_Z 1) 3 <>
  update_forecast (to_frame sample) (F64.of_Z 2) 3 /\
  update_forecast (to_frame sample) (F64.of_Z 1) 3 <>
  update_forecast (to_frame sample) (F64.of_Z 1) 4.
Proof.
  split; [reflexivity|]. split; [reflexivity|]. split; [reflexivity|].
  split; [reflexivity|].
  split; [|split; [|split]].
  - cbv zeta. split; [|split; [|split; [|split; [|split; [|split]]]]];
      try (intros n; apply fire_depth);
      unfold on_growth_slider, depth; run_controller;
      destruct (update_forecast (stored_data pg) v (months_slider pg));
      reflexivity.
  - cbv zeta. split; [|split; [|split; [|split; [|split; [|split]]]]];
      try (intros n; apply fire_depth);
      unfold on_months_slider, depth; run_controller;
      destruct (update_forecast (stored_data pg) (growth_slider pg) h);
      reflexivity.
  - intros E. vm_compute in E. discriminate E.
  - intros E. vm_compute in E. discriminate E.
Qed.

(** ** Instances *)

(** C1 at the sample series. *)
Lemma calculate_metrics_reference_witness :
  valid_dataset sample /\
  (2 <= List.length sample)%nat /\
  exists previous latest,
    calculate_metrics (to_frame sample) = Ok (kpi_snapshot previous latest).
Proof.
  assert (V : valid_dataset sample) by valid_by_eval.
  assert (N : (2 <= List.length sample)%nat) by (cbn; lia).
  split; [exact V|]. split; [exact N|].
  destruct (calculate_metrics_reference sample V N)
    as (pre & previous & latest & _ & H & _).
  exists previous, latest. exact H.
Defined.

(** C3 at the empty series and at [zero_base]. *)
Lemma calculate_metrics_errors_witness :
  calculate_metrics (to_frame []) = Raise IndexError /\
  exists m, calculate_metrics (to_frame zero_base) = Ok m.
Proof.
  split.
  - apply (proj1 (calculate_metrics_errors [])). cbn. lia.
  - assert (N : (2 <= List.length zero_base)%nat) by (cbn; lia).
    destruct (proj2 (calculate_metrics_errors zero_base) N)
      as (pre & previous & latest & m & _ & H & _).
    exists m. exact H.
Defined.


(** C5 at the first record of the sample series, three months ahead. *)
Lemma forecast_metrics_short_history_witness :
  dates_in_range
    [mkRecord jan 1000 (F64.of_Z 50000) 120 40 (F64.of_Z 3)] 3 /\
  forecast_metrics
    (to_frame [mkRecord jan 1000 (F64.of_Z 50000) 120 40 (F64.of_Z 3)])
    3 (F64.of_Z 1) =
  Ok (nan_forecast (mkRecord jan 1000 (F64.of_Z 50000) 120 40 (F64.of_Z 3))
        3).
Proof.
  assert (D : dates_in_range
                [mkRecord jan 1000 (F64.of_Z 50000) 120 40 (F64.of_Z 3)] 3).
  { repeat constructor; cbn; unfold max_ns, jan, ns_per_day; lia. }
  split; [exact D|].
  exact (proj1 (forecast_metrics_short_history _ 3 (F64.of_Z 1) D)).
Defined.


(** C8 at the sample series and a horizon of 0. *)
Lemma forecast_metrics_nonpositive_horizon_witness :
  valid_dataset sample /\
  sample <> [] /\
  0 <= 0 /\
  forecast_metrics (to_frame sample) 0 (F64.of_Z 1) = Ok empty_forecast.
Proof.
  assert (V : valid_dataset sample) by valid_by_eval.
  assert (E : sample <> []) by discriminate.
  assert (M : 0 <= 0) by lia.
  split; [exact V|]. split; [exact E|]. split; [exact M|].
  exact (forecast_metrics_nonpositive_horizon sample 0 (F64.of_Z 1) V E M).
Defined.

(** C4 at the page that holds [small_upload] and an upload that is not a
    data URL. *)
Lemma failed_upload_stores_default_witness :
  parse_contents "hello" = Raise ValueError /\
  stored_data (on_upload uploaded_page "hello" "notes.txt") =
  to_frame sample.
Proof.
  assert (P : parse_contents "hello" = Raise ValueError) by reflexivity.
  split; [exact P|].
  exact (proj1 (proj2 (failed_upload_stores_default plain_runtime
                         uploaded_page "hello" "notes.txt" ValueError P))).
Defined.

(** C7 at an upload that is not a data URL, and at [small_upload]. *)
Lemma update_data_checks_witness :
  update_data (Some "hello") "notes.txt" =
    (to_frame sample, Danger ValueError) /\
  snd (update_data (Some small_upload) "small.csv") = Success "small.csv".
Proof.
  split.
  - exact (proj1 (update_data_checks plain_runtime "hello" "notes.txt")).
  - assert (E : exists content_type content_string decoded text raw dates
                  parsed,
               split "," small_upload = [content_type; content_string] /\
               b64decode content_string = Ok decoded /\
               decode_utf8 decoded = Ok text /\
               read_csv text = Ok raw /\
               getcol raw "date" = Ok dates /\
               to_datetime dates = Ok parsed).
    { do 7 eexists.
      do 5 (split; [vm_compute; reflexivity|]).
      vm_compute; reflexivity. }
    destruct E as (ct & cs & decoded & text & raw & dates & parsed
                   & E0 & E1 & E2 & E3 & E4 & E5).
    exact (f_equal snd
             (proj2 (update_data_checks plain_runtime small_upload
                       "small.csv")
                    ct cs decoded text raw dates parsed
                    E0 E1 E2 E3 E4 E5)).
Defined.

(** * Further properties of the code *)

(** ** The page after an event *)

Lemma on_upload_page (rt : Runtime) (pg : Page) (contents filename : string) :
  on_upload pg contents filename =
  let out := update_data (Some contents) filename in
  mkPage (Some contents) filename (fst out) (snd out)
    (growth_slider pg) (months_slider pg)
    (rendered (update_kpis (fst out)) (kpi_panel pg))
    (rendered (update_growth_chart (fst out)) (growth_chart pg))
    (rendered (update_revenue_chart (fst out)) (revenue_chart pg))
    (rendered (update_forecast (fst out) (growth_slider pg)
                               (months_slider pg))
              (forecast_chart pg))
    (rendered (update_engagement_chart (fst out)) (engagement_chart pg)).
Proof.
  unfold on_upload. change depth with (2 + 4)%nat. rewrite fire_settles.
  run_controller.
  destruct (parse_contents contents) as [df|e]; run_controller.
  - split_views df; reflexivity.
  - split_views df_default; reflexivity.
Qed.

Lemma on_growth_slider_page (rt : Runtime) (pg : Page) (v : float64) :
  on_growth_slider pg v =
  mkPage (upload_contents pg) (upload_filename pg) (stored_data pg)
    (upload_status pg) v (months_slider pg) (kpi_panel pg)
    (growth_chart pg) (revenue_chart pg)
    (rendered (update_forecast (stored_data pg) v (months_slider pg))
              (forecast_chart pg))
    (engagement_chart pg).
Proof.
  unfold on_growth_slider. change depth with (2 + 4)%nat.
  rewrite fire_settles. run_controller.
  destruct (update_forecast (stored_data pg) v (months_slider pg));
    reflexivity.
Qed.

Lemma on_months_slider_page (rt : Runtime) (pg : Page) (h : Z) :
  on_months_slider pg h =
  mkPage (upload_contents pg) (upload_filename pg) (stored_data pg)
    (upload_status pg) (growth_slider pg) h (kpi_panel pg)
    (growth_chart pg) (revenue_chart pg)
    (rendered (update_forecast (stored_data pg) (growth_slider pg) h)
              (forecast_chart pg))
    (engagement_chart pg).
Proof.
  unfold on_months_slider. change depth with (2 + 4)%nat.
  rewrite fire_settles. run_controller.
  destruct (update_forecast (stored_data pg) (growth_slider pg) h);
    reflexivity.
Qed.

Lemma rendered_twice {A : Type} (r : result A) (old : option A) :
  rendered r (rendered r old) = rendered r old.
Proof. now destruct r. Qed.

(** ** Sessions *)

(** X1.  After any sequence of uploads and slider moves the store holds
    what [update_data] returns for the last upload, whatever was stored
    or uploaded before; without an upload it holds what it held at the
    start.  The status line follows the same rule. *)
Theorem session_store_is_last_upload (rt : Runtime) (pg : Page)
  (events : list event) :
  stored_data (session pg events) =
    match last_upload events with
    | Some (contents, filename) =>
        fst (update_data (Some contents) filename)
    | None => stored_data pg
    end /\
  upload_status (session pg events) =
    match last_upload events with
    | Some (contents, filename) =>
        snd (update_data (Some contents) filename)
    | None => upload_status pg
    end.
Proof.
  revert pg. induction events as [|ev rest IH]; intros pg.
  - split; reflexivity.
  - unfold session in *. cbn [fold_left last_upload].
    destruct (IH (react pg ev)) as [IH1 IH2]. rewrite IH1, IH2.
    destruct (last_upload rest) as [[c f]|]; [split; reflexivity|].
    destruct ev as [c f|v|h]; cbn [react].
    + rewrite on_upload_page. split; reflexivity.
    + rewrite on_growth_slider_page. split; reflexivity.
    + rewrite on_months_slider_page. split; reflexivity.
Qed.

(** X2.  Repeating an event changes nothing: the page after the same
    upload, or the same slider position, twice in a row is the page after
    the first. *)
Theorem react_idempotent (rt : Runtime) (pg : Page) (ev : event) :
  react (react pg ev) ev = react pg ev.
Proof.
  destruct ev as [c f|v|h]; cbn [react].
  - rewrite !on_upload_page. cbn.
    now rewrite !rendered_twice.
  - rewrite !on_growth_slider_page. cbn.
    now rewrite rendered_twice.
  - rewrite !on_months_slider_page. cbn.
    now rewrite rendered_twice.
Qed.

(** X3.  The two sliders commute: when the forecast for the final
    parameters can be drawn, moving the growth slider and then the months
    slider gives the same page as moving them in the other order, and the
    forecast chart shows the figure for both new values. *)
Theorem sliders_commute (rt : Runtime) (pg : Page) (v : float64) (h : Z)
  (figure : Figure) :
  update_forecast (stored_data pg) v h = Ok figure ->
  on_months_slider (on_growth_slider pg v) h =
  on_growth_slider (on_months_slider pg h) v /\
  forecast_chart (on_months_slider (on_growth_slider pg v) h) = Some figure.
Proof.
  intros H. rewrite !on_months_slider_page, !on_growth_slider_page.
  cbn. rewrite H. split; reflexivity.
Qed.

(** X4.  After a committed upload the store holds the uploaded frame and
    every view shows its rendering of that frame, or, where its callback
    raises on the frame, what it showed before; the sliders keep their
    positions. *)
Theorem committed_upload_renders (rt : Runtime) (pg : Page)
  (contents filename : string) (df : DataFrame) :
  parse_contents contents = Ok df ->
  let pg' := on_upload pg contents filename in
  stored_data pg' = df /\
  upload_status pg' = Success filename /\
  growth_slider pg' = growth_slider pg /\
  months_slider pg' = months_slider pg /\
  kpi_panel pg' = rendered (update_kpis df) (kpi_panel pg) /\
  growth_chart pg' = rendered (update_growth_chart df) (growth_chart pg) /\
  revenue_chart pg' =
    rendered (update_revenue_chart df) (revenue_chart pg) /\
  forecast_chart pg' =
    rendered (update_forecast df (growth_slider pg) (months_slider pg))
             (forecast_chart pg) /\
  engagement_chart pg' =
    rendered (update_engagement_chart df) (engagement_chart pg).
Proof.
  intros H pg'. subst pg'. rewrite on_upload_page.
  unfold update_data. rewrite H. cbn.
  repeat (split; [reflexivity|]). reflexivity.
Qed.

(** ** Rows of an arbitrary frame *)

Lemma row_at_error (df : DataFrame) (k : nat) (e : exn) :
  row_at df k = Raise e -> e = IndexError.
Proof.
  revert e. induction df as [|[name c] df IH]; intros e H; [discriminate|].
  cbn [row_at] in H.
  destruct (nth_error (col_cells c) k); [|now injection H].
  destruct (row_at df k) as [r|e'] eqn:R; cbn [bind] in H; [discriminate|].
  injection H as <-. now apply IH.
Qed.

Lemma getcol_error (df : DataFrame) (key : string) (e : exn) :
  getcol df key = Raise e -> e = KeyError key.
Proof.
  induction df as [|[name c] df IH]; cbn [getcol]; intros H.
  - now injection H.
  - destruct (String.eqb name key); [discriminate|now apply IH].
Qed.

(** The row at a position inside every column: its entries are the cells
    of the columns, under the same names. *)
Lemma row_at_cells (df : DataFrame) (k : nat) :
  Forall (fun nc => (k < col_len (snd nc))%nat) df ->
  exists row,
    row_at df k = Ok row /\
    forall key,
      getitem row key =
      match getcol df key with
      | Ok c =>
          match nth_error (col_cells c) k with
          | Some v => Ok v
          | None => Raise IndexError
          end
      | Raise e => Raise e
      end.
Proof.
  induction 1 as [|[name c] df Hc _ (row & R & G)].
  - exists []. split; [reflexivity|]. intros key. reflexivity.
  - cbn [snd] in Hc. cbn [row_at].
    destruct (nth_error (col_cells c) k) as [v|] eqn:E.
    + rewrite R. cbn [bind]. eexists. split; [reflexivity|].
      intros key. cbn [getitem getcol].
      destruct (String.eqb name key); [now rewrite E|apply G].
    + apply nth_error_None in E. unfold col_len in Hc. lia.
Qed.

Lemma getitem_upcast (row : Series) (key : string) :
  getitem (map (fun nv => (fst nv, upcast (snd nv))) row) key =
  match getitem row key with
  | Ok v => Ok (upcast v)
  | Raise e => Raise e
  end.
Proof.
  induction row as [|[name v] row IH]; [reflexivity|].
  cbn [map getitem fst snd].
  destruct (String.eqb name key); [reflexivity|exact IH].
Qed.

Lemma rectangular_rows (df : DataFrame) (k : nat) :
  rectangular df -> (k < len df)%nat ->
  Forall (fun nc => (k < col_len (snd nc))%nat) df.
Proof.
  unfold rectangular. intros H Hk.
  eapply Forall_impl; [|exact H]. cbn. intros nc E. lia.
Qed.

(** [df.iloc[i]] on a rectangular frame, for a position inside it. *)
Lemma iloc_cells (df : DataFrame) (i : Z) (k : nat) :
  rectangular df ->
  position (len df) i = Some k ->
  (k < len df)%nat ->
  exists row,
    iloc df i = Ok row /\
    forall key,
      getitem row key =
      match getcol df key with
      | Ok c =>
          match nth_error (col_cells c) k with
          | Some v => Ok (if keeps_dtypes df then v else upcast v)
          | None => Raise IndexError
          end
      | Raise e => Raise e
      end.
Proof.
  intros Hr Hp Hk. unfold iloc. rewrite Hp.
  destruct (row_at_cells df k (rectangular_rows df k Hr Hk))
    as (row & R & G).
  rewrite R. cbn [bind]. eexists. split; [reflexivity|].
  intros key. destruct (keeps_dtypes df).
  - apply G.
  - rewrite getitem_upcast, G.
    destruct (getcol df key) as [c|e]; [|reflexivity].
    now destruct (nth_error (col_cells c) k).
Qed.

(** ** The Metrics Calculator on arbitrary frames *)

(** X5.  On every frame with fewer than two rows, whatever its columns,
    the Metrics Calculator raises IndexError and the KPI callback passes
    it on. *)
Theorem calculate_metrics_few_rows (df : DataFrame) :
  (len df < 2)%nat ->
  calculate_metrics df = Raise IndexError /\
  update_kpis df = Raise IndexError.
Proof.
  intros H.
  assert (C : calculate_metrics df = Raise IndexError).
  { unfold calculate_metrics, iloc.
    destruct (len df) as [|[|n]] eqn:E; [reflexivity| |lia].
    change (position 1 (-1)) with (Some 0%nat).
    change (position 1 (-2)) with (@None nat).
    destruct (row_at df 0) as [row|e] eqn:R; rewrite ?R; cbn [bind].
    - reflexivity.
    - now rewrite (row_at_error df 0 e R). }
  split; [exact C|]. unfold update_kpis. now rewrite C.
Qed.

(** X6.  On a rectangular frame of at least two rows that has no
    [monthly_active_users] column the Metrics Calculator raises the
    KeyError of that column, whatever else the frame holds. *)
Theorem calculate_metrics_missing_users (df : DataFrame) (e : exn) :
  rectangular df ->
  (2 <= len df)%nat ->
  getcol df "monthly_active_users" = Raise e ->
  calculate_metrics df = Raise (KeyError "monthly_active_users").
Proof.
  intros Hr Hn Hc.
  destruct (iloc_cells df (-1) (len df - 1) Hr) as (latest & L & GL);
    [apply position_last; lia | lia |].
  destruct (iloc_cells df (-2) (len df - 2) Hr) as (previous & P & GP);
    [apply position_previous; lia | lia |].
  unfold calculate_metrics. rewrite L, P. cbn [bind].
  rewrite GL, Hc. cbn [bind].
  now rewrite (getcol_error _ _ _ Hc).
Qed.

Lemma getcol_in (df : DataFrame) (key : string) (c : column) :
  getcol df key = Ok c -> exists name, In (name, c) df.
Proof.
  induction df as [|[name c'] df IH]; cbn [getcol]; [discriminate|].
  destruct (String.eqb name key).
  - intros H. injection H as ->. exists name. now left.
  - intros H. destruct (IH H) as [n Hn]. exists n. now right.
Qed.

(** X7.  On a rectangular frame of at least two rows whose
    [monthly_active_users] column holds text, the Metrics Calculator
    raises TypeError: such a column is committed by an upload, and the KPI
    callback then fails. *)
Theorem calculate_metrics_text_users (df : DataFrame) (l : list string) :
  rectangular df ->
  (2 <= len df)%nat ->
  getcol df "monthly_active_users" = Ok (ColObj l) ->
  calculate_metrics df = Raise TypeError /\
  update_kpis df = Raise TypeError.
Proof.
  intros Hr Hn Hc.
  assert (K : keeps_dtypes df = true).
  { unfold keeps_dtypes. apply orb_true_iff. left.
    apply existsb_exists. destruct (getcol_in _ _ _ Hc) as [name Hin].
    exists (name, ColObj l). split; [exact Hin|reflexivity]. }
  assert (Hl : List.length l = len df).
  { destruct (getcol_in _ _ _ Hc) as [name Hin].
    unfold rectangular in Hr. rewrite Forall_forall in Hr.
    specialize (Hr _ Hin). cbn in Hr. unfold col_len in Hr. cbn in Hr.
    now rewrite length_map in Hr. }
  destruct (iloc_cells df (-1) (len df - 1) Hr) as (latest & L & GL);
    [apply position_last; lia | lia |].
  destruct (iloc_cells df (-2) (len df - 2) Hr) as (previous & P & GP);
    [apply position_previous; lia | lia |].
  assert (C : calculate_metrics df = Raise TypeError).
  { unfold calculate_metrics. rewrite L, P. cbn [bind].
    rewrite GL, GP, Hc, K. cbn [col_cells]. rewrite !nth_error_map.
    destruct (nth_error l (len df - 1)) as [s|] eqn:E1;
      [|apply nth_error_None in E1; lia].
    destruct (nth_error l (len df - 2)) as [s'|] eqn:E2;
      [|apply nth_error_None in E2; lia].
    reflexivity. }
  split; [exact C|]. unfold update_kpis. now rewrite C.
Qed.

(** ** The Forecast Engine on arbitrary frames *)

Lemma getcol_frame_map (f : forall A : Type, list A -> list A)
  (df : DataFrame) (key : string) :
  getcol (frame_map f df) key =
  match getcol df key with
  | Ok c => Ok (col_map f c)
  | Raise e => Raise e
  end.
Proof.
  induction df as [|[name c] df IH]; [reflexivity|].
  cbn [frame_map map getcol fst snd].
  destruct (String.eqb name key); [reflexivity|exact IH].
Qed.

Lemma mapM_length {A B : Type} (f : A -> result B) (l : list A)
  (ys : list B) :
  mapM f l = Ok ys -> List.length ys = List.length l.
Proof.
  revert ys. induction l as [|x l IH]; intros ys H.
  - injection H as <-. reflexivity.
  - cbn [mapM] in H. destruct (f x) as [y|]; [|discriminate].
    destruct (mapM f l) as [ys'|]; [|discriminate].
    cbn [bind] in H. injection H as <-. cbn [List.length].
    now rewrite (IH ys' eq_refl).
Qed.

(** X8.  Whenever the Forecast Engine returns, on whatever frame, the
    result has the four columns [date], [monthly_active_users],
    [monthly_revenue] and [type], each with one entry per requested month
    (none for a horizon of zero or less), and every [type] entry is
    [Forecast]. *)
Theorem forecast_metrics_shape (df : DataFrame) (months : Z)
  (multiplier : float64) (out : DataFrame) :
  forecast_metrics df months multiplier = Ok out ->
  column_names out =
    ["date"; "monthly_active_users"; "monthly_revenue"; "type"] /\
  rectangular out /\
  len out = Z.to_nat months /\
  getcol out "type" = Ok (ColObj (repeat "Forecast" (Z.to_nat months))).
Proof.
  intros H. unfold forecast_metrics in H.
  repeat step_bind H. cbv zeta in H. repeat step_bind H.
  injection H as <-.
  repeat match goal with
    | E : mapM _ _ = Ok _ |- _ =>
        apply mapM_length in E; rewrite length_range1 in E
    end.
  split; [reflexivity|]. split; [|split].
  - unfold rectangular, len, col_len.
    repeat constructor; cbn [snd col_cells];
      rewrite !length_map, ?repeat_length; congruence.
  - unfold len, col_len, col_cells. rewrite length_map. assumption.
  - cbn. congruence.
Qed.

(** X9.  The Forecast Engine looks its columns up in a fixed order: a
    frame without a [date] column gives the KeyError of [date]; with a
    [date] column but no [monthly_active_users] column, the KeyError of
    that column; with a numeric [monthly_active_users] column but no
    [monthly_revenue] column, the KeyError of that one. *)
Theorem forecast_metrics_missing_columns (df : DataFrame) (months : Z)
  (multiplier : float64) :
  (forall e, getcol df "date" = Raise e ->
     forecast_metrics df months multiplier = Raise (KeyError "date")) /\
  (forall dates e,
     getcol df "date" = Ok dates ->
     getcol df "monthly_active_users" = Raise e ->
     forecast_metrics df months multiplier =
     Raise (KeyError "monthly_active_users")) /\
  (forall dates users e,
     getcol df "date" = Ok dates ->
     getcol df "monthly_active_users" = Ok users ->
     numeric users = true ->
     getcol df "monthly_revenue" = Raise e ->
     forecast_metrics df months multiplier =
     Raise (KeyError "monthly_revenue")).
Proof.
  split; [|split].
  - intros e H. unfold forecast_metrics, sort_values. rewrite H.
    cbn [bind]. now rewrite (getcol_error _ _ _ H).
  - intros dates e Hd Hu. unfold forecast_metrics, sort_values.
    rewrite Hd. cbn [bind]. unfold tail.
    rewrite ?getcol_frame_map, ?Hu. cbn [bind].
    now rewrite (getcol_error _ _ _ Hu).
  - intros dates users e Hd Hu Hn Hr. unfold forecast_metrics, sort_values.
    rewrite Hd. cbn [bind]. unfold tail.
    rewrite ?getcol_frame_map, ?Hu. cbn [bind].
    assert (P : exists pc,
               pct_change
                 (col_map (fun A l => lastn 6 l)
                    (col_map (fun A l => take l (argsort_col dates)) users))
               = Ok pc).
    { destruct users; try discriminate Hn; cbn; eexists; reflexivity. }
    destruct P as [pc ->]. cbn [bind].
    rewrite ?getcol_frame_map, ?Hr. cbn [bind].
    now rewrite (getcol_error _ _ _ Hr).
Qed.

(** X10.  The Forecast Engine reads the [date], [monthly_active_users]
    and [monthly_revenue] columns and nothing else: two frames that agree
    on these three lookups give the same result, whatever other columns
    they have. *)
Theorem forecast_metrics_three_columns (df df' : DataFrame) (months : Z)
  (multiplier : float64) :
  getcol df "date" = getcol df' "date" ->
  getcol df "monthly_active_users" = getcol df' "monthly_active_users" ->
  getcol df "monthly_revenue" = getcol df' "monthly_revenue" ->
  forecast_metrics df months multiplier =
  forecast_metrics df' months multiplier.
Proof.
  intros Hd Hu Hr. unfold forecast_metrics, sort_values, tail.
  rewrite Hd. destruct (getcol df' "date") as [dates|e] eqn:Ed;
    cbn [bind]; [|reflexivity].
  rewrite ?getcol_frame_map, ?Hd, ?Ed, ?Hu, ?Hr.
  reflexivity.
Qed.

(** ** The Forecast Engine on Datasets *)

Lemma lastn_app {A : Type} (n : nat) (l1 l2 : list A) :
  (n <= List.length l2)%nat -> lastn n (l1 ++ l2) = lastn n l2.
Proof.
  intros H. unfold lastn. rewrite length_app, skipn_app.
  rewrite skipn_all2 by lia. cbn [app]. f_equal. lia.
Qed.

(** X11.  The forecast depends on the six most recent records only: two
    date-sorted Datasets that end with the same six or more records have
    the same forecast, for every horizon and multiplier. *)
Theorem forecast_metrics_window_only (pre pre' recent : Dataset)
  (months : Z) (multiplier : float64) :
  (6 <= List.length recent)%nat ->
  increasing (map date (pre ++ recent)) ->
  increasing (map date (pre' ++ recent)) ->
  forecast_metrics (to_frame (pre ++ recent)) months multiplier =
  forecast_metrics (to_frame (pre' ++ recent)) months multiplier.
Proof.
  intros Hn H H'.
  destruct (nonempty_last recent) as (w & latest & ->).
  { intros ->. cbn in Hn. lia. }
  rewrite !app_assoc in *.
  rewrite (forecast_metrics_dates _ latest months multiplier H).
  rewrite (forecast_metrics_dates _ latest months multiplier H').
  unfold mau_growth, revenue_growth, window.
  rewrite <- !app_assoc.
  rewrite (lastn_app 6 pre _ Hn), (lastn_app 6 pre' _ Hn).
  reflexivity.
Qed.

(** X12.  The KPI panel and the forecast disagree on what the latest
    record is when the last two rows are stored out of order: the Metrics
    Calculator reports the positionally last row, the older record, as the
    current month, while the Forecast Engine sorts and, for a horizon
    whose dates are Timestamps, projects from the newer one. *)
Theorem latest_record_disagreement (pre : Dataset)
  (older newer : MetricRecord) (months : Z) (multiplier : float64) :
  increasing (map date (pre ++ [older; newer])) ->
  1 <= months ->
  horizon_in_range (date newer) months ->
  exists snapshot out,
    calculate_metrics (to_frame (pre ++ [newer; older])) = Ok snapshot /\
    mau snapshot = Int64 (monthly_active_users older) /\
    forecast_metrics (to_frame (pre ++ [newer; older])) months multiplier =
      Ok out /\
    iloc out 0 =
      Ok (projected_row newer
            (F64.mul (mau_growth (pre ++ [older; newer])) multiplier)
            (F64.mul (revenue_growth (pre ++ [older; newer])) multiplier)
            1).
Proof.
  intros H Hm Hd.
  assert (P : Permutation (pre ++ [newer; older]) (pre ++ [older; newer]))
    by (apply Permutation_app_head, perm_swap).
  do 2 eexists.
  split; [apply calculate_metrics_last_two|].
  split; [reflexivity|].
  rewrite (forecast_metrics_any_order _ _ months multiplier P H).
  replace (pre ++ [older; newer]) with ((pre ++ [older]) ++ [newer]) in *
    by now rewrite <- app_assoc.
  split; [apply (forecast_metrics_sorted _ newer months multiplier H Hd)|].
  apply (iloc_forecast_frame newer _ _ months 1). lia.
Qed.

(** X13.  The forecast view renders for every non-empty Dataset, every
    multiplier and every horizon whose dates are Timestamps, also when
    the rows are stored in any order: the figure has the multiplier in
    its title, a historical trace of the stored rows as they are, and a
    forecast trace computed from the date-sorted rows with one point per
    requested month. *)
Theorem update_forecast_renders (raw ds : Dataset) (latest : MetricRecord)
  (multiplier : float64) (months : Z) :
  Permutation raw (ds ++ [latest]) ->
  increasing (map date (ds ++ [latest])) ->
  horizon_in_range (date latest) months ->
  update_forecast (to_frame raw) multiplier months =
  Ok (mkFigure ("Forecast with {}x Growth Rate", Some multiplier)
        [mkTrace "scatter" "Historical MAU"
           (ColDate (map (fun r => Some (date r)) raw))
           (ColInt (map monthly_active_users raw));
         mkTrace "scatter" "Forecast MAU"
           (ColDate (map (fun i => Some (date latest + 30 * i * ns_per_day))
                         (range1 months)))
           (ColFloat
              (compound (F64.of_Z (monthly_active_users latest))
                 (F64.mul (mau_growth (ds ++ [latest])) multiplier)
                 months))]).
Proof.
  intros P H Hd. unfold update_forecast.
  rewrite (forecast_metrics_any_order _ _ months multiplier P H).
  rewrite (forecast_metrics_sorted ds latest months multiplier H Hd).
  reflexivity.
Qed.

(** ** The KPI panel *)

Lemma Qcinv_pos (b : Qc) : (0 < b)%Qc -> (0 < / b)%Qc.
Proof.
  intros H. unfold Qclt in *.
  assert (E : (this (/ b) == / this b)%Q)
    by (unfold Qcinv, Q2Qc; cbn [this]; apply Qred_correct).
  rewrite E. apply Qinv_lt_0_compat. exact H.
Qed.

Lemma qz_lt (a b : Z) : a < b -> (qz a < qz b)%Qc.
Proof.
  intros H. unfold Qclt, qz, Q2Qc. cbn [this].
  rewrite !Qred_correct. now rewrite <- Zlt_Qlt.
Qed.

Lemma decline_is_negative (latest previous : Z) :
  0 < previous -> latest < previous ->
  exists q,
    percent_change (F64.of_Z latest) (F64.of_Z previous) = F64.Fin q /\
    (q < 0)%Qc.
Proof.
  intros Hp Hl. unfold percent_change. rewrite <- of_Z_sub.
  change (F64.of_Z (latest - previous))
    with (F64.Fin (qz (latest - previous))).
  change (F64.of_Z previous) with (F64.Fin (qz previous)).
  rewrite div_finite by (apply qz_nonzero; lia).
  eexists. split; [reflexivity|].
  assert (Hn : (qz (latest - previous) < 0)%Qc)
    by (apply (qz_lt _ 0); lia).
  assert (Hq : (0 < qz previous)%Qc) by (apply (qz_lt 0); lia).
  assert (Hh : (0 < qz 100)%Qc) by (apply (qz_lt 0); lia).
  rewrite <- (Qcmult_0_l (qz 100)).
  apply Qcmult_lt_compat_r; [exact Hh|].
  unfold Qcdiv. rewrite <- (Qcmult_0_l (/ qz previous)).
  apply Qcmult_lt_compat_r; [now apply Qcinv_pos|exact Hn].
Qed.

(** X14.  On every Dataset of at least two records the KPI callback
    returns its six texts, carrying the fields of the snapshot.  The two
    change lines always start with the up arrow: also when the latest MAU
    is below the previous one and the change shown is negative. *)
Theorem update_kpis_arrow (pre : Dataset) (previous latest : MetricRecord) :
  valid_record previous ->
  valid_record latest ->
  exists texts,
    update_kpis (to_frame (pre ++ [previous; latest])) = Ok texts /\
    text_value (kpi_mau texts) = mau (kpi_snapshot previous latest) /\
    text_value (kpi_mau_change texts) =
      mau_change (kpi_snapshot previous latest) /\
    text_value (kpi_revenue texts) =
      revenue (kpi_snapshot previous latest) /\
    text_value (kpi_revenue_change texts) =
      revenue_change (kpi_snapshot previous latest) /\
    text_value (kpi_churn texts) =
      churn_rate (kpi_snapshot previous latest) /\
    text_value (kpi_conversion texts) =
      conversion (kpi_snapshot previous latest) /\
    text_pre (kpi_mau_change texts) = "↑ " /\
    text_pre (kpi_revenue_change texts) = "↑ " /\
    (0 < monthly_active_users previous ->
     monthly_active_users latest < monthly_active_users previous ->
     exists q,
       text_value (kpi_mau_change texts) = Float64 (F64.Fin q) /\
       (q < 0)%Qc).
Proof.
  intros Hp Hl. unfold update_kpis.
  rewrite calculate_metrics_last_two.
  rewrite (computed_is_reference previous latest Hp Hl).
  cbn [bind kpi_snapshot mau mau_change revenue revenue_change churn_rate
       conversion format_f].
  eexists. split; [reflexivity|].
  cbn [kpi_mau kpi_mau_change kpi_revenue kpi_revenue_change kpi_churn
       kpi_conversion text_value text_pre].
  repeat (split; [reflexivity|]).
  intros H0 H1.
  destruct (decline_is_negative _ _ H0 H1) as (q & E & Hq).
  exists q. now rewrite E.
Qed.

(** ** The upload path *)

Lemma split_length (sep : ascii) (s : string) :
  List.length (split sep s) = S (occurrences sep s).
Proof.
  induction s as [|c s IH]; [reflexivity|].
  cbn [split occurrences]. destruct (Ascii.eqb c sep).
  - cbn [List.length]. now rewrite IH.
  - destruct (split sep s) as [|w ws]; [discriminate IH|exact IH].
Qed.

Lemma split_none (sep : ascii) (s : string) :
  occurrences sep s = 0%nat -> split sep s = [s].
Proof.
  induction s as [|c s IH]; [reflexivity|].
  cbn [split occurrences]. destruct (Ascii.eqb c sep); [discriminate|].
  intros H. now rewrite (IH H).
Qed.

Lemma split_prefix (sep : ascii) (a b : string) :
  occurrences sep a = 0%nat ->
  split sep (a ++ String sep b)%string = a :: split sep b.
Proof.
  induction a as [|c a IH]; cbn [String.append split occurrences].
  - intros _. now rewrite Ascii.eqb_refl.
  - destruct (Ascii.eqb c sep); [discriminate|].
    intros H. now rewrite (IH H).
Qed.

(** X15.  Contents without a comma, or with more than one, are rejected
    before anything is decoded: whatever the library calls would return,
    the unpacking of [contents.split(',')] raises ValueError, and the store
    is reset to the sample data with the error shown. *)
Theorem update_data_comma_count (rt : Runtime) (contents filename : string) :
  occurrences "," contents <> 1%nat ->
  parse_contents contents = Raise ValueError /\
  update_data (Some contents) filename = (df_default, Danger ValueError).
Proof.
  intros H.
  assert (P : parse_contents contents = Raise ValueError).
  { unfold parse_contents.
    pose proof (split_length "," contents) as L.
    destruct (split "," contents) as [|a [|b [|c l]]];
      cbn [List.length] in L; try reflexivity.
    exfalso. apply H. lia. }
  split; [exact P|]. unfold update_data. now rewrite P.
Qed.

(** X16.  The upload callback never looks at the content type of the data
    URL, nor at the file name beyond quoting it in the success message:
    two uploads with the same payload store the same frame, whatever
    their content types and file names. *)
Theorem update_data_ignores_type_and_name (rt : Runtime)
  (content_type content_type' payload filename filename' : string) :
  occurrences "," content_type = 0%nat ->
  occurrences "," content_type' = 0%nat ->
  parse_contents (content_type ++ String "," payload)%string =
  parse_contents (content_type' ++ String "," payload)%string /\
  fst (update_data (Some (content_type ++ String "," payload)%string) filename) =
  fst (update_data (Some (content_type' ++ String "," payload)%string) filename').
Proof.
  intros H H'.
  assert (P : parse_contents (content_type ++ String "," payload)%string =
              parse_contents (content_type' ++ String "," payload)%string).
  { unfold parse_contents. rewrite !split_prefix by assumption.
    reflexivity. }
  split; [exact P|]. unfold update_data. rewrite P.
  now destruct (parse_contents (content_type' ++ String "," payload)%string).
Qed.

(** X17.  The upload path and the start-up loader build their frame the
    same way: an upload whose payload decodes to a text stores what
    [load_default_data] returns on a file with that text, and resets the
    store to the sample data where the loader would raise. *)
Theorem upload_agrees_with_loader (rt : Runtime)
  (content_type payload filename : string) (decoded : list Byte.byte)
  (text : string) :
  occurrences "," content_type = 0%nat ->
  occurrences "," payload = 0%nat ->
  b64decode payload = Ok decoded ->
  decode_utf8 decoded = Ok text ->
  parse_contents (content_type ++ String "," payload)%string =
    load_default_data text /\
  update_data (Some (content_type ++ String "," payload)%string) filename =
    match load_default_data text with
    | Ok df => (df, Success filename)
    | Raise e => (df_default, Danger e)
    end.
Proof.
  intros Hc Hp Hb Hd.
  assert (P : parse_contents (content_type ++ String "," payload)%string =
              load_default_data text).
  { unfold parse_contents, load_default_data.
    rewrite (split_prefix _ _ _ Hc), (split_none _ _ Hp).
    rewrite Hb. cbn [bind]. rewrite Hd. reflexivity. }
  split; [exact P|]. unfold update_data. now rewrite P.
Qed.

(** ** Uploads the views cannot draw *)

Lemma row_at_missing (df : DataFrame) (k : nat) (row : Series)
  (key : string) (e : exn) :
  row_at df k = Ok row ->
  getcol df key = Raise e ->
  getitem row key = Raise (KeyError key).
Proof.
  revert row. induction df as [|[name c] df IH]; intros row R G.
  - injection R as <-. reflexivity.
  - cbn [row_at] in R. cbn [getcol] in G.
    destruct (nth_error (col_cells c) k) as [v|]; [|discriminate].
    destruct (row_at df k) as [r|] eqn:Er; cbn [bind] in R; [|discriminate].
    injection R as <-. cbn [getitem].
    destruct (String.eqb name key); [discriminate|].
    now apply IH.
Qed.

Lemma iloc_missing (df : DataFrame) (i : Z) (row : Series) (key : string)
  (e : exn) :
  iloc df i = Ok row ->
  getcol df key = Raise e ->
  getitem row key = Raise (KeyError key).
Proof.
  unfold iloc. intros R G.
  destruct (position (len df) i) as [k|]; [|discriminate].
  destruct (row_at df k) as [r|] eqn:Er; cbn [bind] in R; [|discriminate].
  injection R as <-.
  pose proof (row_at_missing df k r key e Er G) as M.
  destruct (keeps_dtypes df); [exact M|].
  now rewrite getitem_upcast, M.
Qed.

Lemma calculate_metrics_needs_users (df : DataFrame) (e : exn) :
  getcol df "monthly_active_users" = Raise e ->
  exists e', calculate_metrics df = Raise e'.
Proof.
  intros G. unfold calculate_metrics.
  destruct (iloc df (-1)) as [latest|e1] eqn:L; cbn [bind];
    [|now eexists].
  destruct (iloc df (-2)) as [previous|e2] eqn:P; cbn [bind];
    [|now eexists].
  rewrite (iloc_missing df (-1) latest _ e L G). cbn [bind]. now eexists.
Qed.

Lemma forecast_metrics_needs_users (df : DataFrame) (months : Z)
  (multiplier : float64) (e : exn) :
  getcol df "monthly_active_users" = Raise e ->
  exists e', forecast_metrics df months multiplier = Raise e'.
Proof.
  intros G. unfold forecast_metrics, sort_values, tail.
  destruct (getcol df "date") as [dates|e1]; cbn [bind]; [|now eexists].
  rewrite ?getcol_frame_map, ?G. cbn [bind]. now eexists.
Qed.

(** X18.  An upload that parses but has no [monthly_active_users] column
    is reported as loaded and replaces the store, while the KPI panel,
    the growth chart and the forecast chart go on showing what they
    showed for the data before. *)
Theorem upload_without_users_keeps_views (rt : Runtime) (pg : Page)
  (contents filename : string) (df : DataFrame) (e : exn) :
  parse_contents contents = Ok df ->
  getcol df "monthly_active_users" = Raise e ->
  let pg' := on_upload pg contents filename in
  stored_data pg' = df /\
  upload_status pg' = Success filename /\
  kpi_panel pg' = kpi_panel pg /\
  growth_chart pg' = growth_chart pg /\
  forecast_chart pg' = forecast_chart pg.
Proof.
  intros H G pg'. subst pg'. rewrite on_upload_page.
  unfold update_data. rewrite H. cbn.
  destruct (calculate_metrics_needs_users df e G) as [e1 C].
  destruct (forecast_metrics_needs_users df (months_slider pg)
              (growth_slider pg) e G) as [e2 F].
  unfold update_kpis, update_growth_chart, update_forecast, px_column.
  rewrite C, F, G. cbn [bind rendered].
  repeat (split; [reflexivity|]).
  split; [|reflexivity].
  now destruct (getcol df "date").
Qed.

(** ** The date column of the store *)

Lemma parse_contents_date (rt : Runtime) (contents : string)
  (df : DataFrame) :
  parse_contents contents = Ok df ->
  exists dates, getcol df "date" = Ok (ColDate dates).
Proof.
  unfold parse_contents. intros H.
  destruct (split "," contents) as [|a [|b [|c l]]]; try discriminate.
  repeat step_bind H. injection H as <-.
  eexists. apply getcol_setcol_same.
Qed.

(** X19.  When the sample data has a parsed [date] column, so has the
    store after every sequence of uploads and slider moves, whatever is
    uploaded: a file without dates, or with dates that do not parse, never
    reaches the store. *)
Theorem session_store_has_dates (rt : Runtime) (events : list event) :
  (exists dates, getcol df_default "date" = Ok (ColDate dates)) ->
  exists dates,
    getcol (stored_data (session layout events)) "date" =
    Ok (ColDate dates).
Proof.
  intros D.
  assert (I : exists dates,
            getcol (stored_data layout) "date" = Ok (ColDate dates))
    by exact D.
  revert I. generalize layout as pg.
  induction events as [|ev rest IH]; intros pg I; [exact I|].
  unfold session in *. cbn [fold_left]. apply IH.
  destruct ev as [c f|v|h]; cbn [react].
  - rewrite on_upload_page. cbn [stored_data]. unfold update_data.
    destruct (parse_contents c) as [df|e] eqn:P; cbn [fst].
    + now apply (parse_contents_date rt c).
    + exact D.
  - rewrite on_growth_slider_page. exact I.
  - rewrite on_months_slider_page. exact I.
Qed.

(** ** A complete refresh *)

(** X20.  A committed upload that holds the rows of a Dataset of two or
    more records, in any order, refreshes the whole page when the dates
    of the horizon set on the slider are Timestamps: the five view
    callbacks all return on its frame, and the page shows their results
    with the success message, the sliders left where they were. *)
Theorem dataset_upload_refreshes_all (rt : Runtime) (pg : Page)
  (contents filename : string) (raw ds : Dataset) :
  parse_contents contents = Ok (to_frame raw) ->
  Permutation raw ds ->
  increasing (map date ds) ->
  (2 <= List.length raw)%nat ->
  dates_in_range ds (months_slider pg) ->
  exists kpis growth revenue forecast engagement,
    update_kpis (to_frame raw) = Ok kpis /\
    update_growth_chart (to_frame raw) = Ok growth /\
    update_revenue_chart (to_frame raw) = Ok revenue /\
    update_forecast (to_frame raw) (growth_slider pg) (months_slider pg) =
      Ok forecast /\
    update_engagement_chart (to_frame raw) = Ok engagement /\
    on_upload pg contents filename =
    mkPage (Some contents) filename (to_frame raw) (Success filename)
      (growth_slider pg) (months_slider pg) (Some kpis) (Some growth)
      (Some revenue) (Some forecast) (Some engagement).
Proof.
  intros H P I N D.
  destruct (last_two raw N) as (pre & previous & latest & E).
  assert (K : exists kpis, update_kpis (to_frame raw) = Ok kpis).
  { unfold update_kpis. rewrite E, calculate_metrics_last_two.
    eexists. reflexivity. }
  assert (F : exists forecast,
            update_forecast (to_frame raw) (growth_slider pg)
                            (months_slider pg) = Ok forecast).
  { destruct (nonempty_last ds) as (w & newest & ->).
    { intros ->. apply Permutation_length in P. cbn in P. lia. }
    unfold update_forecast.
    rewrite (forecast_metrics_any_order _ _ _ _ P I).
    rewrite (forecast_metrics_sorted _ _ _ _ I
               (dates_in_range_last _ _ _ D)).
    eexists. reflexivity. }
  destruct K as [kpis K]. destruct F as [forecast F].
  exists kpis. do 2 eexists. exists forecast. eexists.
  split; [exact K|]. split; [reflexivity|]. split; [reflexivity|].
  split; [exact F|]. split; [reflexivity|].
  rewrite on_upload_page. unfold update_data. rewrite H.
  cbn [fst snd]. cbv zeta. rewrite K, F. reflexivity.
Qed.

(** ** The end of the Timestamps *)

Lemma mapM_raises {A B : Type} (f : A -> result B) (l : list A)
  (P : exn -> Prop) :
  (forall x e, In x l -> f x = Raise e -> P e) ->
  (exists x e, In x l /\ f x = Raise e) ->
  exists e, mapM f l = Raise e /\ P e.
Proof.
  induction l as [|x l IH]; intros Hp (y & e & Hy & Ey).
  - destruct Hy.
  - cbn [mapM]. destruct (f x) as [b|e'] eqn:Ex; cbn [bind].
    + destruct Hy as [->|Hy]; [congruence|].
      destruct IH as (e1 & E1 & P1).
      * intros z ez Hz. apply Hp. now right.
      * now exists y, e.
      * exists e1. rewrite E1. split; [reflexivity|exact P1].
    + exists e'. split; [reflexivity|].
      apply (Hp x); [now left|exact Ex].
Qed.

Lemma in_range1 (n : Z) : 1 <= n -> In n (range1 n).
Proof.
  intros H. unfold range1. apply in_map_iff.
  exists (Z.to_nat n). split; [lia|]. apply in_seq. lia.
Qed.

Lemma add_days_error (t d : Z) (e : exn) :
  add_days (Timestamp t) d = Raise e ->
  e = OverflowError \/ e = OutOfBounds.
Proof.
  unfold add_days, timedelta.
  destruct (Z.abs d <=? 999999999); cbn [bind].
  - destruct (in_ns_range (d * ns_per_day)
              && in_ns_range (t + d * ns_per_day)); [discriminate|].
    intros H. injection H as <-. now right.
  - intros H. injection H as <-. now left.
Qed.

Lemma add_days_past_range (t d : Z) :
  max_ns < t + d * ns_per_day ->
  exists e, add_days (Timestamp t) d = Raise e.
Proof.
  intros H. unfold add_days, timedelta.
  destruct (Z.abs d <=? 999999999); cbn [bind]; [|now eexists].
  replace (in_ns_range (t + d * ns_per_day)) with false.
  - rewrite andb_false_r. now eexists.
  - unfold in_ns_range.
    destruct (Z.leb_spec (t + d * ns_per_day) max_ns); [lia|].
    now rewrite andb_false_r.
Qed.

(** X21.  The Forecast Engine has no answer past the last Timestamp: when
    the date [30 * months] days after the latest record lies beyond it,
    the date arithmetic raises an overflow or out-of-bounds error, the
    forecast callback passes it on, and no point is returned, whatever
    the history and the multiplier. *)
Theorem forecast_metrics_date_overflow (pre : Dataset)
  (latest : MetricRecord) (months : Z) (multiplier : float64) :
  increasing (map date (pre ++ [latest])) ->
  1 <= months ->
  max_ns < date latest + 30 * months * ns_per_day ->
  exists e,
    (e = OverflowError \/ e = OutOfBounds) /\
    forecast_metrics (to_frame (pre ++ [latest])) months multiplier =
      Raise e /\
    update_forecast (to_frame (pre ++ [latest])) multiplier months =
      Raise e.
Proof.
  intros H Hm Hd.
  destruct (mapM_raises
              (fun i => add_days (Timestamp (date latest)) (30 * i))
              (range1 months)
              (fun e => e = OverflowError \/ e = OutOfBounds))
    as (e & E & P).
  - intros i e _ Ei. exact (add_days_error _ _ _ Ei).
  - destruct (add_days_past_range (date latest) (30 * months)) as [e Ee];
      [lia|].
    exists months, e. split; [now apply in_range1|exact Ee].
  - assert (F : forecast_metrics (to_frame (pre ++ [latest])) months
                  multiplier = Raise e).
    { rewrite (forecast_metrics_dates _ _ _ _ H).
      unfold forecast_dates. now rewrite E. }
    exists e. split; [exact P|]. split; [exact F|].
    unfold update_forecast. now rewrite F.
Qed.

(** ** The properties above at concrete inputs *)

(** X3 at the layout, multiplier 2 and three months. *)
Lemma sliders_commute_witness :
  exists figure,
    update_forecast (stored_data layout) (F64.of_Z 2) 3 = Ok figure /\
    on_months_slider (on_growth_slider layout (F64.of_Z 2)) 3 =
    on_growth_slider (on_months_slider layout 3) (F64.of_Z 2).
Proof.
  assert (E : exists figure,
            update_forecast (stored_data layout) (F64.of_Z 2) 3 = Ok figure).
  { vm_compute. eexists. reflexivity. }
  destruct E as [figure E]. exists figure. split; [exact E|].
  exact (proj1 (sliders_commute plain_runtime layout (F64.of_Z 2) 3
                  figure E)).
Defined.

(** X4 at [small_upload], dropped on the layout. *)
Lemma committed_upload_renders_witness :
  exists df,
    parse_contents small_upload = Ok df /\
    stored_data (on_upload layout small_upload "small.csv") = df /\
    upload_status (on_upload layout small_upload "small.csv") =
      Success "small.csv".
Proof.
  assert (E : exists df, parse_contents small_upload = Ok df).
  { vm_compute. eexists. reflexivity. }
  destruct E as [df E]. exists df. split; [exact E|].
  destruct (committed_upload_renders plain_runtime layout small_upload
              "small.csv" df E) as (H1 & H2 & _).
  split; [exact H1|exact H2].
Defined.

(** X5 at a series of one record. *)
Lemma calculate_metrics_few_rows_witness :
  (len (to_frame [january]) < 2)%nat /\
  calculate_metrics (to_frame [january]) = Raise IndexError.
Proof.
  assert (H : (len (to_frame [january]) < 2)%nat) by (cbn; lia).
  split; [exact H|].
  exact (proj1 (calculate_metrics_few_rows (to_frame [january]) H)).
Defined.

(** X6 at a frame of two dates and nothing else. *)
Lemma calculate_metrics_missing_users_witness :
  rectangular [("date", ColDate [Some jan; Some feb])] /\
  calculate_metrics [("date", ColDate [Some jan; Some feb])] =
  Raise (KeyError "monthly_active_users").
Proof.
  assert (R : rectangular [("date", ColDate [Some jan; Some feb])])
    by (repeat constructor).
  split; [exact R|].
  apply (calculate_metrics_missing_users _
           (KeyError "monthly_active_users") R).
  - cbn. lia.
  - reflexivity.
Defined.

(** X7 at a frame whose user counts are words. *)
Lemma calculate_metrics_text_users_witness :
  rectangular [("date", ColDate [Some jan; Some feb]);
               ("monthly_active_users", ColObj ["many"; "1100"])] /\
  update_kpis [("date", ColDate [Some jan; Some feb]);
               ("monthly_active_users", ColObj ["many"; "1100"])] =
  Raise TypeError.
Proof.
  assert (R : rectangular
                [("date", ColDate [Some jan; Some feb]);
                 ("monthly_active_users", ColObj ["many"; "1100"])])
    by (repeat constructor).
  split; [exact R|].
  apply (calculate_metrics_text_users _ ["many"; "1100"] R).
  - cbn. lia.
  - reflexivity.
Defined.

(** X8 at the sample series, three months ahead. *)
Lemma forecast_metrics_shape_witness :
  exists out,
    forecast_metrics (to_frame sample) 3 (F64.of_Z 1) = Ok out /\
    len out = 3%nat /\
    rectangular out.
Proof.
  assert (E : exists out,
            forecast_metrics (to_frame sample) 3 (F64.of_Z 1) = Ok out).
  { vm_compute. eexists. reflexivity. }
  destruct E as [out E]. exists out. split; [exact E|].
  destruct (forecast_metrics_shape (to_frame sample) 3 (F64.of_Z 1) out E)
    as (_ & R & L & _).
  split; [exact L|exact R].
Defined.

(** X9 at the empty frame, at a frame of dates only, and at a frame of
    dates and user counts. *)
Lemma forecast_metrics_missing_columns_witness :
  forecast_metrics [] 3 (F64.of_Z 1) = Raise (KeyError "date") /\
  forecast_metrics [("date", ColDate [Some jan; Some feb])] 3 (F64.of_Z 1) =
    Raise (KeyError "monthly_active_users") /\
  forecast_metrics [("date", ColDate [Some jan; Some feb]);
                    ("monthly_active_users", ColInt [1000; 1100])]
    3 (F64.of_Z 1) =
    Raise (KeyError "monthly_revenue").
Proof.
  split; [|split].
  - apply (proj1 (forecast_metrics_missing_columns [] 3 (F64.of_Z 1))
             (KeyError "date")).
    reflexivity.
  - apply (proj1 (proj2 (forecast_metrics_missing_columns
                           [("date", ColDate [Some jan; Some feb])]
                           3 (F64.of_Z 1)))
             (ColDate [Some jan; Some feb])
             (KeyError "monthly_active_users")); reflexivity.
  - apply (proj2 (proj2 (forecast_metrics_missing_columns
                           [("date", ColDate [Some jan; Some feb]);
                            ("monthly_active_users", ColInt [1000; 1100])]
                           3 (F64.of_Z 1)))
             (ColDate [Some jan; Some feb]) (ColInt [1000; 1100])
             (KeyError "monthly_revenue")); reflexivity.
Defined.

(** X10 at the sample frame and the sample frame with one more column. *)
Lemma forecast_metrics_three_columns_witness :
  forecast_metrics (to_frame sample) 3 (F64.of_Z 1) =
  forecast_metrics (to_frame sample ++ [("region", ColObj ["a"; "b"; "c"])])
    3 (F64.of_Z 1).
Proof.
  apply (forecast_metrics_three_columns (to_frame sample)
           (to_frame sample ++ [("region", ColObj ["a"; "b"; "c"])]));
    reflexivity.
Defined.

(** X11 at [half_year], alone and after the sample series. *)
Lemma forecast_metrics_window_only_witness :
  (6 <= List.length half_year)%nat /\
  increasing (map date (sample ++ half_year)) /\
  increasing (map date ([] ++ half_year)) /\
  forecast_metrics (to_frame (sample ++ half_year)) 3 (F64.of_Z 1) =
  forecast_metrics (to_frame ([] ++ half_year)) 3 (F64.of_Z 1).
Proof.
  assert (N : (6 <= List.length half_year)%nat) by (cbn; lia).
  assert (I : increasing (map date (sample ++ half_year)))
    by (cbn; unfold jan, feb, mar, ns_per_day; lia).
  assert (I' : increasing (map date ([] ++ half_year)))
    by (cbn; unfold ns_per_day; lia).
  split; [exact N|]. split; [exact I|]. split; [exact I'|].
  exact (forecast_metrics_window_only sample [] half_year 3 (F64.of_Z 1)
           N I I').
Defined.

(** X12 at the sample series with February and March exchanged. *)
Lemma latest_record_disagreement_witness :
  increasing (map date ([january] ++ [february; march])) /\
  1 <= 3 /\
  horizon_in_range (date march) 3 /\
  exists snapshot out,
    calculate_metrics (to_frame ([january] ++ [march; february])) =
      Ok snapshot /\
    mau snapshot = Int64 1100 /\
    forecast_metrics (to_frame ([january] ++ [march; february])) 3
      (F64.of_Z 1) = Ok out /\
    (row <- iloc out 0 ;; getitem row "date") =
      Ok (Timestamp (mar + 30 * ns_per_day)).
Proof.
  assert (I : increasing (map date ([january] ++ [february; march])))
    by (cbn; unfold jan, feb, mar, ns_per_day; lia).
  assert (M : 1 <= 3) by lia.
  assert (D : horizon_in_range (date march) 3)
    by (repeat split; cbn; unfold max_ns, mar, ns_per_day; lia).
  split; [exact I|]. split; [exact M|]. split; [exact D|].
  destruct (latest_record_disagreement [january] february march 3
              (F64.of_Z 1) I M D) as (snapshot & out & C & U & F & R).
  exists snapshot, out. split; [exact C|]. split; [exact U|].
  split; [exact F|]. rewrite R. reflexivity.
Defined.

(** X13 at the shuffled sample series. *)
Lemma update_forecast_renders_witness :
  Permutation shuffled ([january; february] ++ [march]) /\
  increasing (map date ([january; february] ++ [march])) /\
  horizon_in_range (date march) 3 /\
  exists figure,
    update_forecast (to_frame shuffled) (F64.of_Z 2) 3 = Ok figure /\
    fig_title figure = ("Forecast with {}x Growth Rate", Some (F64.of_Z 2)).
Proof.
  assert (P : Permutation shuffled ([january; february] ++ [march]))
    by apply perm_swap.
  assert (I : increasing (map date ([january; february] ++ [march])))
    by (cbn; unfold jan, feb, mar, ns_per_day; lia).
  assert (D : horizon_in_range (date march) 3)
    by (repeat split; cbn; unfold max_ns, mar, ns_per_day; lia).
  split; [exact P|]. split; [exact I|]. split; [exact D|].
  eexists. split.
  - exact (update_forecast_renders shuffled [january; february] march
             (F64.of_Z 2) 3 P I D).
  - reflexivity.
Defined.

(** X14 at [shrinking], where the user count falls from 1000 to 100. *)
Lemma update_kpis_arrow_witness :
  exists texts q,
    update_kpis (to_frame shrinking) = Ok texts /\
    text_pre (kpi_mau_change texts) = "↑ " /\
    text_value (kpi_mau_change texts) = Float64 (F64.Fin q) /\
    (q < 0)%Qc.
Proof.
  assert (V : Forall valid_record shrinking).
  { repeat constructor; cbn; try lia; unfold Qcle, Qle; cbn; lia. }
  assert (Vp : valid_record (mkRecord jan 1000 (F64.of_Z 50000) 120 40
                               (F64.of_Z 3)))
    by (inversion V; assumption).
  assert (Vl : valid_record (mkRecord feb 100 (F64.of_Z 50000) 10 900
                               (F64.of_Z 3)))
    by (inversion V as [|? ? _ V']; inversion V'; assumption).
  destruct (update_kpis_arrow [] _ _ Vp Vl)
    as (texts & K & _ & _ & _ & _ & _ & _ & A & _ & D).
  destruct D as (q & Q & Hq); [cbn; lia | cbn; lia |].
  exists texts, q. split; [exact K|]. split; [exact A|].
  split; [exact Q|exact Hq].
Defined.

(** X15 at an upload that is not a data URL. *)
Lemma update_data_comma_count_witness :
  occurrences "," "hello" <> 1%nat /\
  update_data (Some "hello") "notes.txt" =
    (to_frame sample, Danger ValueError).
Proof.
  assert (H : occurrences "," "hello" <> 1%nat) by (cbn; lia).
  split; [exact H|].
  exact (proj2 (update_data_comma_count plain_runtime "hello" "notes.txt"
                  H)).
Defined.

(** X16 at a payload sent once as CSV and once as a spreadsheet. *)
Lemma update_data_ignores_type_and_name_witness :
  fst (update_data
         (Some ("data:text/csv;base64" ++
                String "," "ZGF0ZSx2aXNpdHMKMjAyNC0wMS0wMSwxMAoyMDI0LTAyLTAxLDIwCg==")%string)
         "visits.csv") =
  fst (update_data
         (Some ("data:application/vnd.ms-excel;base64" ++
                String "," "ZGF0ZSx2aXNpdHMKMjAyNC0wMS0wMSwxMAoyMDI0LTAyLTAxLDIwCg==")%string)
         "visits.xls").
Proof.
  apply (proj2 (update_data_ignores_type_and_name plain_runtime
                  "data:text/csv;base64"
                  "data:application/vnd.ms-excel;base64"
                  "ZGF0ZSx2aXNpdHMKMjAyNC0wMS0wMSwxMAoyMDI0LTAyLTAxLDIwCg=="
                  "visits.csv" "visits.xls" eq_refl eq_refl)).
Defined.

(** X17 at the payload of [dates_only_upload]. *)
Lemma upload_agrees_with_loader_witness :
  exists decoded text,
    b64decode "ZGF0ZSx2aXNpdHMKMjAyNC0wMS0wMSwxMAoyMDI0LTAyLTAxLDIwCg==" =
      Ok decoded /\
    decode_utf8 decoded = Ok text /\
    parse_contents dates_only_upload = load_default_data text.
Proof.
  assert (E : exists decoded text,
            b64decode
              "ZGF0ZSx2aXNpdHMKMjAyNC0wMS0wMSwxMAoyMDI0LTAyLTAxLDIwCg==" =
              Ok decoded /\
            decode_utf8 decoded = Ok text).
  { do 2 eexists. split; vm_compute; reflexivity. }
  destruct E as (decoded & text & B & D).
  exists decoded, text. split; [exact B|]. split; [exact D|].
  exact (proj1 (upload_agrees_with_loader plain_runtime
                  "data:text/csv;base64"
                  "ZGF0ZSx2aXNpdHMKMjAyNC0wMS0wMSwxMAoyMDI0LTAyLTAxLDIwCg=="
                  "visits.csv" decoded text eq_refl eq_refl B D)).
Defined.

(** X18 at [dates_only_upload], dropped on the page that shows
    [small_upload]. *)
Lemma upload_without_users_keeps_views_witness :
  exists df,
    parse_contents dates_only_upload = Ok df /\
    getcol df "monthly_active_users" =
      Raise (KeyError "monthly_active_users") /\
    stored_data (on_upload uploaded_page dates_only_upload "visits.csv") =
      df /\
    kpi_panel (on_upload uploaded_page dates_only_upload "visits.csv") =
      kpi_panel uploaded_page.
Proof.
  assert (E : exists df,
            parse_contents dates_only_upload = Ok df /\
            getcol df "monthly_active_users" =
              Raise (KeyError "monthly_active_users")).
  { eexists. split; vm_compute; reflexivity. }
  destruct E as (df & P & G). exists df.
  split; [exact P|]. split; [exact G|].
  destruct (upload_without_users_keeps_views plain_runtime uploaded_page
              dates_only_upload "visits.csv" df _ P G)
    as (S & _ & K & _).
  split; [exact S|exact K].
Defined.

(** X19 at a session of three uploads and a slider move. *)
Lemma session_store_has_dates_witness :
  (exists dates, getcol df_default "date" = Ok (ColDate dates)) /\
  exists dates,
    getcol (stored_data
              (session layout
                 [Upload small_upload "small.csv";
                  Upload undated_upload "undated.csv";
                  MoveGrowth (F64.of_Z 2);
                  Upload dates_only_upload "visits.csv"]))
           "date" = Ok (ColDate dates).
Proof.
  assert (D : exists dates, getcol df_default "date" = Ok (ColDate dates))
    by (eexists; reflexivity).
  split; [exact D|].
  exact (session_store_has_dates plain_runtime _ D).
Defined.

(** X20 at [unsorted_upload], dropped on the layout. *)
Lemma dataset_upload_refreshes_all_witness :
  parse_contents unsorted_upload = Ok (to_frame [february; january]) /\
  Permutation [february; january] [january; february] /\
  increasing (map date [january; february]) /\
  dates_in_range [january; february] (months_slider layout) /\
  exists kpis forecast,
    kpi_panel (on_upload layout unsorted_upload "unsorted.csv") =
      Some kpis /\
    forecast_chart (on_upload layout unsorted_upload "unsorted.csv") =
      Some forecast.
Proof.
  assert (H : parse_contents unsorted_upload =
              Ok (to_frame [february; january])).
  { vm_compute.
    repeat (f_equal; try (apply Qc_is_canon; vm_compute; reflexivity)). }
  assert (P : Permutation [february; january] [january; february])
    by apply perm_swap.
  assert (I : increasing (map date [january; february]))
    by (cbn; unfold jan, feb, ns_per_day; lia).
  assert (N : (2 <= List.length [february; january])%nat) by (cbn; lia).
  assert (D : dates_in_range [january; february] (months_slider layout)).
  { repeat constructor; cbn; unfold max_ns, jan, feb, ns_per_day; lia. }
  split; [exact H|]. split; [exact P|]. split; [exact I|].
  split; [exact D|].
  destruct (dataset_upload_refreshes_all plain_runtime layout
              unsorted_upload "unsorted.csv" _ _ H P I N D)
    as (kpis & growth & revenue & forecast & engagement
        & _ & _ & _ & _ & _ & E).
  exists kpis, forecast.
  split; [exact (f_equal kpi_panel E)|exact (f_equal forecast_chart E)].
Defined.

(** X21 at a series that ends on 2262-03-20, one month ahead. *)
Lemma forecast_metrics_date_overflow_witness :
  increasing
    (map date
       ([january] ++
        [mkRecord (106729 * ns_per_day) 1100 (F64.of_Z 55000) 150 60
                  (F64.of_Z 4)])) /\
  1 <= 1 /\
  max_ns < 106729 * ns_per_day + 30 * 1 * ns_per_day /\
  exists e,
    forecast_metrics
      (to_frame
         ([january] ++
          [mkRecord (106729 * ns_per_day) 1100 (F64.of_Z 55000) 150 60
                    (F64.of_Z 4)]))
      1 (F64.of_Z 1) = Raise e.
Proof.
  assert (I : increasing
                (map date
                   ([january] ++
                    [mkRecord (106729 * ns_per_day) 1100 (F64.of_Z 55000)
                              150 60 (F64.of_Z 4)])))
    by (cbn; unfold jan, ns_per_day; lia).
  assert (M : 1 <= 1) by lia.
  assert (D : max_ns < 106729 * ns_per_day + 30 * 1 * ns_per_day)
    by (unfold max_ns, ns_per_day; lia).
  split; [exact I|]. split; [exact M|]. split; [exact D|].
  destruct (forecast_metrics_date_overflow [january]
              (mkRecord (106729 * ns_per_day) 1100 (F64.of_Z 55000) 150 60
                        (F64.of_Z 4))
              1 (F64.of_Z 1) I M D) as (e & _ & F & _).
  exists e. exact F.
Defined.
